(** * KYC workflow service: a shallow embedding of the Python backend

    The development follows the layering of the repository:

    - [Py]        Python values, dictionaries and the few built-ins the code uses;
    - [Eff]       the effects of a request: the document store, the clock,
                  randomness, and raised exceptions;
    - [Mongo]     the pymongo collection calls the repository makes;
    - [Repo]      [database/kyc_repository.py];
    - [Validators] [utils/validators.py], function [validate_kyc_data];
    - [Face]      [services/face_verification.py];
    - [Chain]     [services/blockchain_service.py], [store_kyc_verification];
    - [Service]   [services/kyc_service.py].

    Third-party code (OpenCV, PIL, the Siamese model, web3, regular
    expressions, hashing) is not embedded: it appears as the fields of the
    record [Collab], and every theorem holds for every choice of them.
    Calls to the logger have no effect on what a function returns or stores
    and are left out. *)

From Stdlib Require Import ZArith NArith List String Ascii Bool Lia QArith
  DecimalString PeanoNat.
Import ListNotations.

Set Warnings "-register-all".
Local Open Scope string_scope.
Local Open Scope Z_scope.

(* ================================================================== *)
(** ** Python values *)

Module Py.

(** The values that flow through the service: JSON-like data, BSON
    [ObjectId]s and [datetime]s.  An [ObjectId] is kept by its 24-digit,
    lower-case hexadecimal rendering, which is what [str] returns for it; it is
    a value of its own type, different from the string that renders it.  A
    [datetime] is a number of microseconds since the epoch, a [float] a
    rational, a [str] the bytes of its UTF-8 encoding. *)
Inductive pyval : Type :=
| PNone
| PBool (b : bool)
| PInt (z : Z)
| PFloat (q : Q)
| PStr (s : string)
| POid (h : string)
| PTime (t : Z)
| PList (l : list pyval)
| PDict (d : list (string * pyval)).

(** A Python [dict] with string keys, in insertion order. *)
Definition dict := list (string * pyval).

(** Equality of stored values, as the document store compares them when it
    matches a filter: values of different types are different. *)
Fixpoint pyval_eqb (a b : pyval) : bool :=
  match a, b with
  | PNone, PNone => true
  | PBool x, PBool y => Bool.eqb x y
  | PInt x, PInt y => Z.eqb x y
  | PFloat x, PFloat y => Qeq_bool x y
  | PStr x, PStr y => String.eqb x y
  | POid x, POid y => String.eqb x y
  | PTime x, PTime y => Z.eqb x y
  | PList x, PList y =>
      (fix go (l1 l2 : list pyval) : bool :=
         match l1, l2 with
         | [], [] => true
         | u :: l1', v :: l2' => pyval_eqb u v && go l1' l2'
         | _, _ => false
         end) x y
  | PDict x, PDict y =>
      (fix go (l1 l2 : list (string * pyval)) : bool :=
         match l1, l2 with
         | [], [] => true
         | (k1, u) :: l1', (k2, v) :: l2' =>
             String.eqb k1 k2 && pyval_eqb u v && go l1' l2'
         | _, _ => false
         end) x y
  | _, _ => false
  end.

(** [bool(v)]. *)
Definition py_truthy (v : pyval) : bool :=
  match v with
  | PNone => false
  | PBool b => b
  | PInt z => negb (Z.eqb z 0)
  | PFloat q => negb (Qeq_bool q 0)
  | PStr s => negb (String.eqb s EmptyString)
  | POid _ => true
  | PTime _ => true
  | PList l => match l with [] => false | _ => true end
  | PDict d => match d with [] => false | _ => true end
  end.

(** [d.get(k)], as an option: [None] when the key is absent. *)
Fixpoint dict_get (k : string) (d : dict) : option pyval :=
  match d with
  | [] => None
  | (k', v) :: d' => if String.eqb k' k then Some v else dict_get k d'
  end.

(** [k in d]. *)
Definition dict_has (k : string) (d : dict) : bool :=
  match dict_get k d with Some _ => true | None => false end.

(** [d.get(k)] and [d.get(k, default)]. *)
Definition dict_get_or (k : string) (default : pyval) (d : dict) : pyval :=
  match dict_get k d with Some v => v | None => default end.

(** [d[k] = v]: an existing key keeps its place, a new key goes last. *)
Fixpoint dict_set (k : string) (v : pyval) (d : dict) : dict :=
  match d with
  | [] => [(k, v)]
  | (k', v') :: d' =>
      if String.eqb k' k then (k, v) :: d' else (k', v') :: dict_set k v d'
  end.

(** [d.pop(k, None)], for its effect on [d]. *)
Definition dict_pop (k : string) (d : dict) : dict :=
  filter (fun kv => negb (String.eqb (fst kv) k)) d.

(** [{**d1, **d2}]. *)
Definition dict_merge (d1 d2 : dict) : dict :=
  fold_left (fun acc kv => dict_set (fst kv) (snd kv) acc) d2 d1.

(** [str(v)], as f-strings use it.  Strings render as themselves, a list of
    strings as Python prints it (['a', 'b']).  The renderings of floats and
    datetimes are not Python's; the service formats neither. *)
Definition str_of_Z (z : Z) : string := NilEmpty.string_of_int (Z.to_int z).

Definition join (sep : string) (l : list string) : string :=
  match l with
  | [] => EmptyString
  | x :: r => fold_left (fun acc s => acc ++ sep ++ s) r x
  end.

Fixpoint py_repr (v : pyval) : string :=
  match v with
  | PNone => "None"
  | PBool true => "True"
  | PBool false => "False"
  | PInt z => str_of_Z z
  | PFloat q => str_of_Z (Qnum q) ++ "/" ++ str_of_Z (Zpos (Qden q))
  | PStr s => "'" ++ s ++ "'"
  | POid h => "ObjectId('" ++ h ++ "')"
  | PTime t => "datetime(" ++ str_of_Z t ++ ")"
  | PList l => "[" ++ join ", " (map py_repr l) ++ "]"
  | PDict d =>
      "{" ++ join ", " (map (fun kv => "'" ++ fst kv ++ "': " ++ py_repr (snd kv)) d)
          ++ "}"
  end.

Definition py_str (v : pyval) : string :=
  match v with
  | PStr s => s
  | POid h => h
  | _ => py_repr v
  end.

End Py.
Import Py.

(* ================================================================== *)
(** ** Effects *)

Module Eff.

(** The exceptions the embedded code can meet. *)
Inductive exn : Type :=
| KeyError (k : string)
| TypeError
| AttributeError
| InvalidId
| PyMongoError
| ExternalError (what : string).

Inductive outcome (A : Type) : Type :=
| Return (a : A)
| Raise (e : exn).
Arguments Return {A} a.
Arguments Raise {A} e.

(** The part of the world a request can read or change.  [db_faults] is the
    fate of the coming round trips to the document store ([true]: the driver
    raises); an empty list is a store that answers every call. *)
Record World : Type := mkWorld {
  kyc_collection : list dict;
  face_verification_collection : list dict;
  blockchain_collection : list dict;
  oid_counter : N;
  entropy : N;
  clock : Z;
  db_faults : list bool
}.

(** A computation reads and writes the world and returns or raises; what it
    wrote before raising stays written. *)
Definition M (A : Type) : Type := World -> outcome A * World.

Definition ret {A} (a : A) : M A := fun w => (Return a, w).
Definition raise {A} (e : exn) : M A := fun w => (Raise e, w).

Definition bind {A B} (m : M A) (k : A -> M B) : M B :=
  fun w =>
    match m w with
    | (Return a, w') => k a w'
    | (Raise e, w') => (Raise e, w')
    end.

(** [try: m  except Exception as e: h e]. *)
Definition try_except {A} (m : M A) (h : exn -> M A) : M A :=
  fun w =>
    match m w with
    | (Return a, w') => (Return a, w')
    | (Raise e, w') => h e w'
    end.

(** Lifting of a call that returns or raises without touching the world. *)
Definition lift {A} (o : outcome A) : M A := fun w => (o, w).

Definition get_world : M World := fun w => (Return w, w).

End Eff.
Import Eff.

Declare Scope py_scope.
Delimit Scope py_scope with py.
Notation "x <- m ;; k" := (bind m (fun x => k))
  (at level 61, m at next level, right associativity) : py_scope.
Notation "m ;;; k" := (bind m (fun _ => k))
  (at level 61, right associativity) : py_scope.
Local Open Scope py_scope.

(** [d[k]]: raises [KeyError] when the key is absent. *)
Definition subscript (d : dict) (k : string) : M pyval :=
  match dict_get k d with
  | Some v => ret v
  | None => raise (KeyError k)
  end.

(** [datetime.utcnow()]. *)
Definition utcnow : M pyval := fun w => (Return (PTime (clock w)), w).

(** [int(datetime.utcnow().timestamp())]. *)
Definition utcnow_seconds : M pyval :=
  fun w => (Return (PInt (Z.quot (clock w) 1000000)), w).

(** [datetime.min], 0001-01-01T00:00:00, in microseconds since the epoch. *)
Definition datetime_min : Z := -62135596800000000.

(* ================================================================== *)
(** ** The document store *)

(** A collection is the list of its documents in insertion order.  Every
    stored document has an [_id]; the driver gives a document inserted without
    one a fresh [ObjectId]. *)

Module Mongo.

Inductive coll : Type := kyc_submissions | face_verifications | blockchain_transactions.

Definition docs (c : coll) (w : World) : list dict :=
  match c with
  | kyc_submissions => kyc_collection w
  | face_verifications => face_verification_collection w
  | blockchain_transactions => blockchain_collection w
  end.

Definition with_docs (c : coll) (l : list dict) (w : World) : World :=
  match c with
  | kyc_submissions =>
      mkWorld l (face_verification_collection w) (blockchain_collection w)
              (oid_counter w) (entropy w) (clock w) (db_faults w)
  | face_verifications =>
      mkWorld (kyc_collection w) l (blockchain_collection w)
              (oid_counter w) (entropy w) (clock w) (db_faults w)
  | blockchain_transactions =>
      mkWorld (kyc_collection w) (face_verification_collection w) l
              (oid_counter w) (entropy w) (clock w) (db_faults w)
  end.

(** One round trip to the server: it raises when the next fault is due. *)
Definition round_trip : M unit :=
  fun w =>
    match db_faults w with
    | [] => (Return tt, w)
    | b :: rest =>
        let w' := mkWorld (kyc_collection w) (face_verification_collection w)
                          (blockchain_collection w) (oid_counter w) (entropy w)
                          (clock w) rest in
        (if b then Raise PyMongoError else Return tt, w')
    end.

(** A filter document [{k1: v1, ...}] matches a document whose field [ki]
    equals [vi] for every [i]; [None] also matches a missing field.  (Matching
    inside arrays is left out: the fields queried here never hold one.) *)
Definition matches (q d : dict) : bool :=
  forallb (fun kv =>
             match dict_get (fst kv) d with
             | Some v => pyval_eqb v (snd kv)
             | None => pyval_eqb (snd kv) PNone
             end) q.

Definition find (c : coll) (q : dict) : M (list dict) :=
  round_trip ;;; w <- get_world ;; ret (filter (matches q) (docs c w)).

Definition find_one (c : coll) (q : dict) : M (option dict) :=
  round_trip ;;; w <- get_world ;; ret (List.find (matches q) (docs c w)).

(** The sixteen hexadecimal digits, and a number on [width] of them. *)
Definition hex_digit (n : N) : ascii :=
  match n with
  | 0 => "0" | 1 => "1" | 2 => "2" | 3 => "3" | 4 => "4" | 5 => "5"
  | 6 => "6" | 7 => "7" | 8 => "8" | 9 => "9" | 10 => "a" | 11 => "b"
  | 12 => "c" | 13 => "d" | 14 => "e" | _ => "f"
  end%N%char.

Fixpoint hex_fixed (width : nat) (n : N) : string :=
  match width with
  | O => EmptyString
  | S k => hex_fixed k (n / 16)%N ++ String (hex_digit (n mod 16)%N) EmptyString
  end.

(** A fresh [ObjectId]: the driver draws one for a document without [_id]. *)
Definition fresh_oid : M pyval :=
  fun w =>
    (Return (POid (hex_fixed 24 (oid_counter w))),
     mkWorld (kyc_collection w) (face_verification_collection w)
             (blockchain_collection w) (N.succ (oid_counter w)) (entropy w)
             (clock w) (db_faults w)).

Definition append_doc (c : coll) (d : dict) : M unit :=
  fun w => (Return tt, with_docs c (docs c w ++ [d]) w).

(** [insert_one(d)], returning [inserted_id]. *)
Definition insert_one (c : coll) (d : dict) : M pyval :=
  id <- match dict_get "_id" d with
        | Some v => ret v
        | None => fresh_oid
        end ;;
  round_trip ;;;
  append_doc c (("_id", id) :: dict_pop "_id" d) ;;;
  ret id.

(** Does [{'$set': upd}] change [d]?  The server counts a document as modified
    only when some field ends up with a different value. *)
Definition set_changes (upd d : dict) : bool :=
  existsb (fun kv =>
             match dict_get (fst kv) d with
             | Some v => negb (pyval_eqb v (snd kv))
             | None => true
             end) upd.

Fixpoint update_first (q upd : dict) (l : list dict) : list dict * Z :=
  match l with
  | [] => ([], 0)
  | d :: r =>
      if matches q d
      then (dict_merge d upd :: r, if set_changes upd d then 1 else 0)
      else let (r', n) := update_first q upd r in (d :: r', n)
  end.

(** [update_one(q, {'$set': upd})], returning [modified_count]. *)
Definition update_one (c : coll) (q upd : dict) : M Z :=
  round_trip ;;;
  fun w =>
    let (l, n) := update_first q upd (docs c w) in
    (Return n, with_docs c l w).

(** [ObjectId(s)] for a string: twenty-four hexadecimal digits, or
    [InvalidId]. *)
Definition is_hex (a : ascii) : bool :=
  let n := nat_of_ascii a in
  ((48 <=? n) && (n <=? 57) || (97 <=? n) && (n <=? 102)
   || (65 <=? n) && (n <=? 70))%nat.

Definition lower (a : ascii) : ascii :=
  let n := nat_of_ascii a in
  if ((65 <=? n) && (n <=? 90))%nat then ascii_of_nat (n + 32) else a.

Fixpoint string_forallb (p : ascii -> bool) (s : string) : bool :=
  match s with
  | EmptyString => true
  | String a r => p a && string_forallb p r
  end.

Fixpoint string_map (f : ascii -> ascii) (s : string) : string :=
  match s with
  | EmptyString => EmptyString
  | String a r => String (f a) (string_map f r)
  end.

Definition ObjectId (s : string) : M pyval :=
  if (Nat.eqb (String.length s) 24 && string_forallb is_hex s)%bool
  then ret (POid (string_map lower s))
  else raise InvalidId.

End Mongo.
Import Mongo.

(* ================================================================== *)
(** ** database/kyc_repository.py *)

Module Repo.

(** [for kyc in l: kyc['_id'] = str(kyc['_id'])]. *)
Definition stringify_id (kyc : dict) : M dict :=
  id <- subscript kyc "_id" ;;
  ret (dict_set "_id" (PStr (py_str id)) kyc).

Fixpoint for_each {A B} (f : A -> M B) (l : list A) : M (list B) :=
  match l with
  | [] => ret []
  | x :: r => y <- f x ;; ys <- for_each f r ;; ret (y :: ys)
  end.

Definition create_kyc_submission (kyc_data : dict) : M pyval :=
  try_except
    (now <- utcnow ;;
     let kyc_data := dict_set "submission_date" now kyc_data in
     let kyc_data := dict_set "status" (PStr "pending") kyc_data in
     let kyc_data := dict_set "verification_attempts" (PInt 0) kyc_data in
     id <- insert_one kyc_submissions kyc_data ;;
     ret (PStr (py_str id)))
    (fun e => raise e).

Definition get_kyc_submission_by_id (kyc_id : string) : M (option dict) :=
  try_except
    (oid <- ObjectId kyc_id ;;
     kyc <- find_one kyc_submissions [("_id", oid)] ;;
     match kyc with
     | Some d =>
         if py_truthy (PDict d)
         then d' <- stringify_id d ;; ret (Some d')
         else ret (Some d)
     | None => ret None
     end)
    (fun _ => ret None).

Definition get_kyc_submissions_by_user (user_id : string) : M (list dict) :=
  try_except
    (kyc_submissions <- find kyc_submissions [("user_id", PStr user_id)] ;;
     for_each stringify_id kyc_submissions)
    (fun _ => ret []).

Definition update_kyc_status (kyc_id status : string) (admin_notes : option string)
  : M bool :=
  try_except
    (now <- utcnow ;;
     let update_data := [("status", PStr status); ("status_updated_at", now)] in
     let update_data :=
       match admin_notes with
       | Some n =>
           if py_truthy (PStr n)
           then dict_set "admin_notes" (PStr n) update_data
           else update_data
       | None => update_data
       end in
     oid <- ObjectId kyc_id ;;
     n <- update_one kyc_submissions [("_id", oid)] update_data ;;
     ret (0 <? n))
    (fun _ => ret false).

Definition create_face_verification (verification_data : dict) : M pyval :=
  try_except
    (now <- utcnow ;;
     let verification_data := dict_set "verification_date" now verification_data in
     id <- insert_one face_verifications verification_data ;;
     ret (PStr (py_str id)))
    (fun e => raise e).

Definition create_blockchain_transaction (transaction_data : dict) : M pyval :=
  try_except
    (now <- utcnow ;;
     let transaction_data := dict_set "recorded_at" now transaction_data in
     id <- insert_one blockchain_transactions transaction_data ;;
     ret (PStr (py_str id)))
    (fun e => raise e).

End Repo.
Import Repo.

(* ================================================================== *)
(** ** Collaborators *)

(** A face rectangle [(x, y, w, h)] as OpenCV returns it. *)
Definition rect : Type := (Z * Z * Z * Z)%type.

(** What the service calls and this development does not look into.  The
    validators of [KYCValidators] catch what they raise and answer [False], so
    they are total predicates; [model_loader.compare_faces] catches what it
    raises and answers [None]. *)
Record Collab : Type := mkCollab {
  validate_full_name : pyval -> bool;
  validate_email : pyval -> bool;
  validate_phone_number : pyval -> bool;
  validate_date_of_birth : pyval -> bool;
  validate_gender : pyval -> bool;
  validate_nationality : pyval -> bool;
  validate_document_number : pyval -> pyval -> bool;
  validate_address : pyval -> bool;
  validate_base64_image : pyval -> bool;
  (** [str(uuid.uuid4())] and [Security_utils.hash_sensitive_data], as
      functions of the randomness drawn *)
  uuid4 : N -> string;
  hash_sensitive_data : N -> pyval -> outcome pyval;
  (** decoded pictures and model inputs *)
  Image : Type;
  Tensor : Type;
  (** base64, PIL and numpy: the body of [_decode_base64_image] *)
  pil_decode : pyval -> outcome Image;
  (** [image_array.shape[:2]], height first *)
  shape : Image -> Z * Z;
  (** [cv2.cvtColor] then [detectMultiScale] *)
  detectMultiScale : Image -> outcome (list rect);
  (** [image_array[y:y+h, x:x+w]] *)
  crop : Image -> rect -> Image;
  (** [cv2.Laplacian(gray, cv2.CV_64F).var()] *)
  laplacian_var : Image -> outcome Q;
  (** [cv2.resize] and the division by 255 *)
  resize_normalize : Image -> outcome Tensor;
  compare_faces : Tensor -> Tensor -> option Q;
  (** the chain client *)
  web3_ready : bool;
  account_ready : bool;
  generate_verification_hash : pyval -> string -> bool -> pyval;
  create_kyc_verification_transaction : World -> dict -> outcome pyval
}.

(** [Config.FACE_VERIFICATION_THRESHOLD]. *)
Definition FACE_VERIFICATION_THRESHOLD : Q := 6 # 10.

(** One draw of randomness. *)
Definition draw : M N :=
  fun w =>
    (Return (entropy w),
     mkWorld (kyc_collection w) (face_verification_collection w)
             (blockchain_collection w) (oid_counter w) (N.succ (entropy w))
             (clock w) (db_faults w)).

(* ================================================================== *)
(** ** utils/validators.py *)

Module Validators.
Section WithCollab.
Variable C : Collab.

Definition required_fields : list string :=
  ["full_name"; "date_of_birth"; "gender"; "nationality"; "address";
   "phone_number"; "email"; "document_type"; "document_number"].

(** [k in d and d[k]]. *)
Definition present (k : string) (d : dict) : option pyval :=
  match dict_get k d with
  | Some v => if py_truthy v then Some v else None
  | None => None
  end.

Definition check (k : string) (ok : pyval -> bool) (msg : string) (d : dict)
  : list string :=
  match present k d with
  | Some v => if ok v then [] else [msg]
  | None => []
  end.

(** A Python [str] is held by the bytes of its UTF-8 encoding, which is how
    Rocq reads a string literal.  [code_points] gives back its characters:
    [len] counts them and [str.strip] looks at them.  (A sequence of bytes
    that is not UTF-8 stands for no Python string; a stray byte is read as a
    character of its own.) *)
Fixpoint code_points (s : string) : list N :=
  match s with
  | EmptyString => []
  | String a r =>
      let b0 := N_of_ascii a in
      if (b0 <? 192)%N then b0 :: code_points r
      else if (b0 <? 224)%N then
        match r with
        | String b r1 =>
            ((b0 mod 32) * 64 + N_of_ascii b mod 64)%N :: code_points r1
        | EmptyString => [b0]
        end
      else if (b0 <? 240)%N then
        match r with
        | String b (String c r2) =>
            ((b0 mod 16) * 4096 + (N_of_ascii b mod 64) * 64
             + N_of_ascii c mod 64)%N :: code_points r2
        | String b r1 => b0 :: code_points r1
        | EmptyString => [b0]
        end
      else
        match r with
        | String b (String c (String d r3)) =>
            ((b0 mod 8) * 262144 + (N_of_ascii b mod 64) * 4096
             + (N_of_ascii c mod 64) * 64 + N_of_ascii d mod 64)%N
              :: code_points r3
        | String b r1 => b0 :: code_points r1
        | EmptyString => [b0]
        end
  end.

(** [len(s)]. *)
Definition len (s : string) : nat := List.length (code_points s).

(** [c.isspace()]: the characters [str.strip] removes, U+0009 to U+000D,
    U+001C to U+0020, U+0085, U+00A0, U+1680, U+2000 to U+200A, U+2028,
    U+2029, U+202F, U+205F and U+3000. *)
Definition isspace (c : N) : bool :=
  ((9 <=? c) && (c <=? 13) || (28 <=? c) && (c <=? 32)
   || (c =? 133) || (c =? 160) || (c =? 5760)
   || (8192 <=? c) && (c <=? 8202) || (c =? 8232) || (c =? 8233)
   || (c =? 8239) || (c =? 8287) || (c =? 12288))%N.

Fixpoint lstrip (l : list N) : list N :=
  match l with
  | c :: r => if isspace c then lstrip r else l
  | [] => []
  end.

(** The characters of [s.strip()]. *)
Definition strip (s : string) : list N :=
  rev (lstrip (rev (lstrip (code_points s)))).

Definition check_address (d : dict) : list string :=
  match present "address" d with
  | Some (PDict a) =>
      if validate_address C (PDict a) then [] else ["Invalid address information"]
  | Some (PStr s) =>
      if (List.length (strip s) <? 10)%nat then ["Address too short"] else []
  | _ => []
  end.

(** The list [errors] of [validate_kyc_data], in the order the function fills
    it.  With a dictionary for [kyc_data] and validators that do not raise,
    nothing in the body raises and its [except] branch is not met. *)
Definition validation_errors (kyc_data : dict) (partial : bool) : list string :=
  (if partial then []
   else flat_map (fun field =>
                    match present field kyc_data with
                    | Some _ => []
                    | None => ["Missing required field: " ++ field]
                    end) required_fields)
  ++ check "full_name" (validate_full_name C) "Invalid full name format" kyc_data
  ++ check "email" (validate_email C) "Invalid email format" kyc_data
  ++ check "phone_number" (validate_phone_number C)
           "Invalid phone number format" kyc_data
  ++ check "date_of_birth" (validate_date_of_birth C)
           "Invalid date of birth" kyc_data
  ++ check "gender" (validate_gender C) "Invalid gender value" kyc_data
  ++ check "nationality" (validate_nationality C) "Invalid nationality" kyc_data
  ++ check "document_number"
           (fun v => validate_document_number C v
                       (dict_get_or "document_type" (PStr "national_id") kyc_data))
           "Invalid document number format" kyc_data
  ++ check_address kyc_data
  ++ check "face_image" (validate_base64_image C)
           "Invalid face image data" kyc_data
  ++ check "document_image" (validate_base64_image C)
           "Invalid document image data" kyc_data
  ++ check "document_back_image" (validate_base64_image C)
           "Invalid document back image data" kyc_data.

Definition validate_kyc_data (kyc_data : dict) (partial : bool) : dict :=
  let errors := validation_errors kyc_data partial in
  [("valid", PBool (Nat.eqb (List.length errors) 0));
   ("errors", PList (map PStr errors))].

End WithCollab.
End Validators.
Import Validators.

(* ================================================================== *)
(** ** services/face_verification.py *)

Module Face.
Section WithCollab.
Variable C : Collab.

(** Arithmetic on [numpy.int32], the type of the numbers in a face
    rectangle: a product wraps around. *)
Definition wrap32 (z : Z) : Z := (z + 2 ^ 31) mod 2 ^ 32 - 2 ^ 31.

(** [lambda x: x[2] * x[3]]. *)
Definition area_key (r : rect) : Z :=
  let '(_, _, w, h) := r in wrap32 (w * h).

(** The loop of [max(l, key=key)] once a first candidate is held: a later
    element replaces it only when its key is strictly greater. *)
Fixpoint max_by {A} (key : A -> Z) (best : A) (l : list A) : A :=
  match l with
  | [] => best
  | x :: r => if key best <? key x then max_by key x r else max_by key best r
  end.

Definition _decode_base64_image (base64_string : pyval) : option (Image C) :=
  match pil_decode C base64_string with
  | Return image_array => Some image_array
  | Raise _ => None
  end.

(** The rectangle [_detect_face] keeps, when the detector answers. *)
Definition largest_face (faces : list rect) : option rect :=
  match faces with
  | [] => None
  | f :: rest => Some (max_by area_key f rest)
  end.

Definition _detect_face (image_array : Image C) : option (Image C) :=
  match detectMultiScale C image_array with
  | Return faces =>
      match largest_face faces with
      | None => None
      | Some r => Some (crop C image_array r)
      end
  | Raise _ => None
  end.

Definition _preprocess_face (face_array : Image C) : option (Tensor C) :=
  match resize_normalize C face_array with
  | Return face_normalized => Some face_normalized
  | Raise _ => None
  end.

Definition face_failure (message : string) : pyval :=
  PDict [("success", PBool false); ("message", PStr message);
         ("similarity_score", PFloat 0); ("is_same_person", PBool false)].

Definition verify_faces (image1_array image2_array : Image C) : pyval :=
  let face1 := _detect_face image1_array in
  let face2 := _detect_face image2_array in
  match face1, face2 with
  | None, _ => face_failure "No face detected in first image"
  | Some _, None => face_failure "No face detected in second image"
  | Some face1, Some face2 =>
      match _preprocess_face face1, _preprocess_face face2 with
      | Some processed_face1, Some processed_face2 =>
          match compare_faces C processed_face1 processed_face2 with
          | None => face_failure "Face comparison failed"
          | Some similarity_score =>
              let is_same_person :=
                negb (Qle_bool similarity_score FACE_VERIFICATION_THRESHOLD) in
              PDict [("success", PBool true);
                     ("message", PStr "Face verification completed successfully");
                     ("similarity_score", PFloat similarity_score);
                     ("is_same_person", PBool is_same_person);
                     ("threshold_used", PFloat FACE_VERIFICATION_THRESHOLD)]
          end
      | _, _ => face_failure "Failed to preprocess faces"
      end
  end.

Definition stored_failure (message : string) : pyval :=
  PDict [("success", PBool false); ("message", PStr message);
         ("similarity_score", PFloat 0)].

(** [for kyc in l: if kyc['status'] == 'approved': approved_kyc = kyc; break]. *)
Fixpoint first_approved (l : list dict) : M (option dict) :=
  match l with
  | [] => ret None
  | kyc :: r =>
      status <- subscript kyc "status" ;;
      if pyval_eqb status (PStr "approved") then ret (Some kyc)
      else first_approved r
  end.

(** [result[k]] for the dictionary [verify_faces] answered. *)
Definition result_field (result : pyval) (k : string) : M pyval :=
  match result with
  | PDict d => subscript d k
  | _ => raise TypeError
  end.

(** The [try] block of [verify_face_with_stored_image]. *)
Definition verify_face_with_stored_image_try (user_id : string) (live_image : pyval)
  : M pyval :=
  kyc_submissions <- get_kyc_submissions_by_user user_id ;;
  match kyc_submissions with
  | [] => ret (stored_failure "No KYC submission found for user")
  | _ =>
      approved_kyc <- first_approved kyc_submissions ;;
      match approved_kyc with
      | None =>
          ret (stored_failure "No approved KYC submission with face image found")
      | Some approved_kyc =>
          if negb (py_truthy (PDict approved_kyc))
             || negb (dict_has "face_image" approved_kyc)
          then ret (stored_failure
                      "No approved KYC submission with face image found")
          else
            let live_image_array := _decode_base64_image live_image in
            stored_image <- subscript approved_kyc "face_image" ;;
            let stored_image_array := _decode_base64_image stored_image in
            match live_image_array, stored_image_array with
            | Some live_image_array, Some stored_image_array =>
                let result := verify_faces live_image_array stored_image_array in
                kyc_submission_id <- subscript approved_kyc "_id" ;;
                similarity_score <- result_field result "similarity_score" ;;
                verification_result <- result_field result "is_same_person" ;;
                let verification_data :=
                  [("user_id", PStr user_id);
                   ("kyc_submission_id", kyc_submission_id);
                   ("similarity_score", similarity_score);
                   ("verification_result", verification_result);
                   ("threshold_used", PFloat FACE_VERIFICATION_THRESHOLD)] in
                create_face_verification verification_data ;;;
                ret result
            | _, _ => ret (stored_failure "Failed to decode images")
            end
      end
  end.

Definition verify_face_with_stored_image (user_id : string) (live_image : pyval)
  : M pyval :=
  try_except (verify_face_with_stored_image_try user_id live_image)
    (fun _ => ret (stored_failure "Face verification failed due to system error")).

Definition quality_failure (message : string) : dict :=
  [("valid", PBool false); ("message", PStr message)].

Definition validate_image_quality (image_data : pyval) : dict :=
  match _decode_base64_image image_data with
  | None => quality_failure "Failed to decode image"
  | Some image_array =>
      let '(height, width) := shape C image_array in
      if (height <? 100) || (width <? 100)
      then quality_failure "Image resolution too low (minimum 100x100 pixels)"
      else
        match _detect_face image_array with
        | None => quality_failure "No face detected in image"
        | Some face_array =>
            let '(face_height, face_width) := shape C face_array in
            if (face_height <? 50) || (face_width <? 50)
            then quality_failure "Detected face is too small"
            else
              match laplacian_var C image_array with
              | Raise _ => quality_failure "Image quality validation failed"
              | Return blur_value =>
                  if negb (Qle_bool 100 blur_value)
                  then quality_failure "Image appears to be blurry"
                  else
                    [("valid", PBool true);
                     ("message", PStr "Image quality is acceptable");
                     ("image_dimensions", PList [PInt width; PInt height]);
                     ("face_dimensions", PList [PInt face_width; PInt face_height]);
                     ("blur_score", PFloat blur_value)]
              end
        end
  end.

End WithCollab.
End Face.
Import Face.

(* ================================================================== *)
(** ** services/blockchain_service.py *)

Module Chain.
Section WithCollab.
Variable C : Collab.

Definition chain_failure (message : string) : pyval :=
  PDict [("success", PBool false); ("message", PStr message)].

(** [d[k]] where [d] came back from a collaborator. *)
Definition field (v : pyval) (k : string) : M pyval :=
  match v with
  | PDict d => subscript d k
  | _ => raise TypeError
  end.

(** [d.get(k)] where [d] came back from a collaborator. *)
Definition field_get (v : pyval) (k : string) : M pyval :=
  match v with
  | PDict d => ret (dict_get_or k PNone d)
  | _ => raise AttributeError
  end.

Definition store_kyc_verification (user_id : pyval) (kyc_id : string)
    (verification_status : bool) (admin_id : string) : M pyval :=
  try_except
    (if negb (web3_ready C) || negb (account_ready C)
     then ret (chain_failure "Blockchain not properly initialized")
     else
       now <- utcnow_seconds ;;
       let verification_data :=
         [("user_id", user_id); ("kyc_id", PStr kyc_id);
          ("verification_status", PBool verification_status);
          ("admin_id", PStr admin_id);
          ("timestamp", now);
          ("verification_hash",
            generate_verification_hash C user_id kyc_id verification_status)] in
       w <- get_world ;;
       transaction_result <-
         lift (create_kyc_verification_transaction C w verification_data) ;;
       success <- field transaction_result "success" ;;
       if py_truthy success
       then
         transaction_hash <- field transaction_result "transaction_hash" ;;
         block_number <- field_get transaction_result "block_number" ;;
         gas_used <- field_get transaction_result "gas_used" ;;
         transaction_fee <- field_get transaction_result "transaction_fee" ;;
         let blockchain_data :=
           [("user_id", user_id); ("kyc_id", PStr kyc_id);
            ("transaction_hash", transaction_hash);
            ("block_number", block_number);
            ("verification_status", PBool verification_status);
            ("admin_id", PStr admin_id);
            ("gas_used", gas_used);
            ("transaction_fee", transaction_fee)] in
         create_blockchain_transaction blockchain_data ;;;
         ret (PDict [("success", PBool true);
                     ("message",
                       PStr "KYC verification stored on blockchain successfully");
                     ("transaction_hash", transaction_hash);
                     ("block_number", block_number)])
       else
         message <- field transaction_result "message" ;;
         ret (chain_failure ("Blockchain transaction failed: " ++ py_str message)))
    (fun _ => ret (chain_failure "Blockchain storage failed due to system error")).

End WithCollab.
End Chain.
Import Chain.

(* ================================================================== *)
(** ** services/kyc_service.py *)

Module Service.
Section WithCollab.
Variable C : Collab.

Definition failure (message : string) : pyval :=
  PDict [("success", PBool false); ("message", PStr message)].

(** The double quote, for the one message that holds it. *)
Definition dquote : string := String (ascii_of_nat 34) EmptyString.

(** [v in l] for a list of string literals. *)
Definition in_strings (v : pyval) (l : list string) : bool :=
  existsb (fun s => pyval_eqb v (PStr s)) l.

(** The first loop of [submit_kyc]: the status of the first submission that
    is pending or approved. *)
Fixpoint first_active (existing_kyc : list dict) : M (option pyval) :=
  match existing_kyc with
  | [] => ret None
  | kyc :: r =>
      status <- subscript kyc "status" ;;
      if in_strings status ["pending"; "approved"] then ret (Some status)
      else first_active r
  end.

(** The [try] block of [submit_kyc]. *)
Definition submit_kyc_try (user_id : string) (kyc_data : dict) : M pyval :=
  let validation_result := validate_kyc_data C kyc_data false in
  valid <- subscript validation_result "valid" ;;
  if negb (py_truthy valid)
  then
    errors <- subscript validation_result "errors" ;;
    ret (failure ("Validation failed: " ++ py_str errors))
  else
    existing_kyc <- get_kyc_submissions_by_user user_id ;;
    active <- first_active existing_kyc ;;
    match active with
    | Some status =>
        ret (failure ("User already has " ++ py_str status ++ " KYC submission"))
    | None =>
        (* [if 'face_image' in kyc_data]: without a face image there is
           nothing to validate and the function goes on *)
        image_validation <-
          match dict_get "face_image" kyc_data with
          | Some face_image => ret (validate_image_quality C face_image)
          | None => ret [("valid", PBool true)]
          end ;;
        image_valid <- subscript image_validation "valid" ;;
        if negb (py_truthy image_valid)
        then
          message <- subscript image_validation "message" ;;
          ret (failure ("Face image validation failed: " ++ py_str message))
        else
          n <- draw ;;
          let submission_id := uuid4 C n in
          salt <- draw ;;
          document_number <-
            lift (hash_sensitive_data C salt
                    (dict_get_or "document_number" (PStr EmptyString) kyc_data)) ;;
          now <- utcnow ;;
          let get k := dict_get_or k PNone kyc_data in
          let submission_data :=
            [("submission_id", PStr submission_id);
             ("user_id", PStr user_id);
             ("personal_info",
               PDict [("full_name", get "full_name");
                      ("date_of_birth", get "date_of_birth");
                      ("gender", get "gender");
                      ("nationality", get "nationality");
                      ("address", get "address");
                      ("phone_number", get "phone_number");
                      ("email", get "email")]);
             ("identity_documents",
               PDict [("document_type", get "document_type");
                      ("document_number", document_number);
                      ("document_image", get "document_image");
                      ("document_back_image", get "document_back_image")]);
             ("face_image", get "face_image");
             ("additional_documents",
               dict_get_or "additional_documents" (PList []) kyc_data);
             ("status", PStr "pending");
             ("submission_date", now);
             ("verification_attempts", PInt 0)] in
          kyc_id <- create_kyc_submission submission_data ;;
          ret (PDict [("success", PBool true);
                      ("message", PStr "KYC submission created successfully");
                      ("kyc_id", kyc_id);
                      ("submission_id", PStr submission_id);
                      ("status", PStr "pending")])
    end.

Definition submit_kyc (user_id : string) (kyc_data : dict) : M pyval :=
  try_except (submit_kyc_try user_id kyc_data)
    (fun _ => ret (failure "KYC submission failed due to system error")).

(** [a > b] on the keys [max] compares.  Datetimes, numbers and strings are
    ordered among themselves; a datetime against anything else raises
    [TypeError], and so does every other pair here. *)
Definition py_gt (a b : pyval) : outcome bool :=
  match a, b with
  | PTime x, PTime y => Return (y <? x)
  | PInt x, PInt y => Return (y <? x)
  | PFloat x, PFloat y => Return (negb (Qle_bool x y))
  | PStr x, PStr y => Return (String.ltb y x)
  | _, _ => Raise TypeError
  end.

(** [max(l, key=key)] after the first element: a later element replaces the
    candidate only when its key is strictly greater. *)
Fixpoint max_loop (key : dict -> pyval) (best : dict) (l : list dict)
  : outcome dict :=
  match l with
  | [] => Return best
  | x :: r =>
      match py_gt (key x) (key best) with
      | Return true => max_loop key x r
      | Return false => max_loop key best r
      | Raise e => Raise e
      end
  end.

Definition submission_date_key (x : dict) : pyval :=
  dict_get_or "submission_date" (PTime datetime_min) x.

(** The [try] block of [get_kyc_status]. *)
Definition get_kyc_status_try (user_id : string) : M pyval :=
  kyc_submissions <- get_kyc_submissions_by_user user_id ;;
  match kyc_submissions with
  | [] =>
      ret (PDict [("success", PBool true);
                  ("status", PStr "not_submitted");
                  ("message", PStr "No KYC submission found")])
  | first :: rest =>
      latest_kyc <- lift (max_loop submission_date_key first rest) ;;
      status <- subscript latest_kyc "status" ;;
      kyc_id <- subscript latest_kyc "_id" ;;
      submission_date <- subscript latest_kyc "submission_date" ;;
      ret (PDict [("success", PBool true);
                  ("status", status);
                  ("kyc_id", kyc_id);
                  ("submission_date", submission_date);
                  ("last_updated", dict_get_or "status_updated_at" PNone latest_kyc);
                  ("admin_notes", dict_get_or "admin_notes" PNone latest_kyc);
                  ("verification_attempts",
                    dict_get_or "verification_attempts" (PInt 0) latest_kyc)])
  end.

Definition get_kyc_status (user_id : string) : M pyval :=
  try_except (get_kyc_status_try user_id)
    (fun _ => ret (failure "Failed to retrieve KYC status")).

(** The anchoring step of an approval, with its own [try]: whatever the chain
    service answers or raises is logged and dropped. *)
Definition anchor_on_chain (kyc_submission : dict) (kyc_id admin_id : string)
  : M unit :=
  try_except
    (user_id <- subscript kyc_submission "user_id" ;;
     blockchain_result <- store_kyc_verification C user_id kyc_id true admin_id ;;
     success <- field blockchain_result "success" ;;
     if py_truthy success
     then field blockchain_result "transaction_hash" ;;; ret tt
     else field blockchain_result "message" ;;; ret tt)
    (fun _ => ret tt).

(** The [try] block of [verify_kyc_submission]. *)
Definition verify_kyc_submission_try (kyc_id admin_id decision : string)
    (notes : option string) : M pyval :=
  if negb (in_strings (PStr decision) ["approved"; "rejected"])
  then ret (failure ("Invalid decision. Must be " ++ dquote ++ "approved" ++ dquote
                    ++ " or " ++ dquote ++ "rejected" ++ dquote))
  else
    kyc_submission <- get_kyc_submission_by_id kyc_id ;;
    match kyc_submission with
    | None => ret (failure "KYC submission not found")
    | Some kyc_submission =>
        if negb (py_truthy (PDict kyc_submission))
        then ret (failure "KYC submission not found")
        else
          status <- subscript kyc_submission "status" ;;
          if negb (pyval_eqb status (PStr "pending"))
          then ret (failure ("KYC submission is already " ++ py_str status))
          else
            let notes_or_empty :=
              match notes with
              | Some n => if py_truthy (PStr n) then n else EmptyString
              | None => EmptyString
              end in
            let admin_notes :=
              "Verified by admin " ++ admin_id ++ ". " ++ notes_or_empty in
            update_success <- update_kyc_status kyc_id decision (Some admin_notes) ;;
            if negb update_success
            then ret (failure "Failed to update KYC status")
            else
              (if String.eqb decision "approved"
               then anchor_on_chain kyc_submission kyc_id admin_id
               else ret tt) ;;;
              ret (PDict [("success", PBool true);
                          ("message",
                            PStr ("KYC submission " ++ decision ++ " successfully"));
                          ("status", PStr decision);
                          ("admin_notes", PStr admin_notes)])
    end.

Definition verify_kyc_submission (kyc_id admin_id decision : string)
    (notes : option string) : M pyval :=
  try_except (verify_kyc_submission_try kyc_id admin_id decision notes)
    (fun _ => ret (failure "KYC verification failed due to system error")).

(** [{**a, **b}] on two values: both must be mappings. *)
Definition merge_mappings (a b : pyval) : M pyval :=
  match a, b with
  | PDict x, PDict y => ret (PDict (dict_merge x y))
  | _, _ => raise TypeError
  end.

(** The [try] block of [update_kyc_submission]. *)
Definition update_kyc_submission_try (kyc_id user_id : string) (update_data : dict)
  : M pyval :=
  kyc_submission <- get_kyc_submission_by_id kyc_id ;;
  match kyc_submission with
  | None => ret (failure "KYC submission not found")
  | Some kyc_submission =>
      if negb (py_truthy (PDict kyc_submission))
      then ret (failure "KYC submission not found")
      else
        owner <- subscript kyc_submission "user_id" ;;
        if negb (pyval_eqb owner (PStr user_id))
        then ret (failure
                    "Access denied: KYC submission belongs to different user")
        else
          status <- subscript kyc_submission "status" ;;
          if negb (in_strings status ["pending"; "rejected"])
          then ret (failure ("Cannot update " ++ py_str status ++ " KYC submission"))
          else
            let validation_result := validate_kyc_data C update_data true in
            valid <- subscript validation_result "valid" ;;
            if negb (py_truthy valid)
            then
              errors <- subscript validation_result "errors" ;;
              ret (failure ("Validation failed: " ++ py_str errors))
            else
              (* [if 'face_image' in update_data], as in [submit_kyc] *)
              image_validation <-
                match dict_get "face_image" update_data with
                | Some face_image => ret (validate_image_quality C face_image)
                | None => ret [("valid", PBool true)]
                end ;;
              image_valid <- subscript image_validation "valid" ;;
              if negb (py_truthy image_valid)
              then
                message <- subscript image_validation "message" ;;
                ret (failure ("Face image validation failed: " ++ py_str message))
              else
                now <- utcnow ;;
                let update_fields :=
                  [("status", PStr "pending"); ("updated_at", now)] in
                update_fields <-
                  match dict_get "personal_info" update_data with
                  | Some p =>
                      merged <- merge_mappings
                                  (dict_get_or "personal_info" (PDict []) kyc_submission)
                                  p ;;
                      ret (dict_set "personal_info" merged update_fields)
                  | None => ret update_fields
                  end ;;
                update_fields <-
                  match dict_get "identity_documents" update_data with
                  | Some p =>
                      merged <- merge_mappings
                                  (dict_get_or "identity_documents" (PDict [])
                                     kyc_submission)
                                  p ;;
                      ret (dict_set "identity_documents" merged update_fields)
                  | None => ret update_fields
                  end ;;
                let update_fields :=
                  match dict_get "face_image" update_data with
                  | Some v => dict_set "face_image" v update_fields
                  | None => update_fields
                  end in
                let update_fields :=
                  match dict_get "additional_documents" update_data with
                  | Some v => dict_set "additional_documents" v update_fields
                  | None => update_fields
                  end in
                (* [{'_id': kyc_submission['_id']}]: the value that
                   [get_kyc_submission_by_id] left under [_id] *)
                id <- subscript kyc_submission "_id" ;;
                modified_count <-
                  update_one kyc_submissions [("_id", id)] update_fields ;;
                if 0 <? modified_count
                then ret (PDict [("success", PBool true);
                                 ("message",
                                   PStr "KYC submission updated successfully");
                                 ("status", PStr "pending")])
                else ret (failure "No changes were made to KYC submission")
  end.

Definition update_kyc_submission (kyc_id user_id : string) (update_data : dict)
  : M pyval :=
  try_except (update_kyc_submission_try kyc_id user_id update_data)
    (fun _ => ret (failure "KYC update failed due to system error")).

(** [kyc_submission['identity_documents'].pop('document_number', None)]. *)
Definition pop_document_number (kyc_submission : dict) : M dict :=
  match dict_get "identity_documents" kyc_submission with
  | None => ret kyc_submission
  | Some (PDict docs) =>
      ret (dict_set "identity_documents"
             (PDict (dict_pop "document_number" docs)) kyc_submission)
  | Some (PList _) => raise TypeError
  | Some _ => raise AttributeError
  end.

Definition get_kyc_details (kyc_id : string) (user_id : option string)
    (admin : bool) : M pyval :=
  try_except
    (kyc_submission <- get_kyc_submission_by_id kyc_id ;;
     match kyc_submission with
     | None => ret (failure "KYC submission not found")
     | Some kyc_submission =>
         if negb (py_truthy (PDict kyc_submission))
         then ret (failure "KYC submission not found")
         else
           denied <-
             match user_id with
             | Some u =>
                 if negb admin && py_truthy (PStr u)
                 then owner <- subscript kyc_submission "user_id" ;;
                      ret (negb (pyval_eqb owner (PStr u)))
                 else ret false
             | None => ret false
             end ;;
           if (denied : bool)
           then ret (failure "Access denied")
           else
             kyc_submission <-
               (if negb admin
                then kyc_submission <- pop_document_number kyc_submission ;;
                     ret (dict_pop "admin_notes" kyc_submission)
                else ret kyc_submission) ;;
             ret (PDict [("success", PBool true);
                         ("kyc_submission", PDict kyc_submission)])
     end)
    (fun _ => ret (failure "Failed to retrieve KYC details")).

Definition perform_face_verification (user_id : string) (live_image : pyval)
  : M pyval :=
  try_except
    (verify_face_with_stored_image C user_id live_image)
    (fun _ => ret (failure "Face verification failed due to system error")).

End WithCollab.
End Service.
Import Service.

(* ================================================================== *)
(** * Vocabulary of the statements *)

(** The store answers every call. *)
Definition healthy (w : World) : Prop := db_faults w = [].

(** A request answered with ['success': True]. *)
Definition is_success (o : outcome pyval) : bool :=
  match o with
  | Return (PDict d) =>
      match dict_get "success" d with
      | Some (PBool true) => true
      | _ => false
      end
  | _ => false
  end.



(** A stored submission as [create_kyc_submission] writes them: an [ObjectId]
    under [_id], the owner, a status and a submission date. *)
Definition doc_okb (d : dict) : bool :=
  match dict_get "_id" d, dict_get "user_id" d, dict_get "status" d,
        dict_get "submission_date" d with
  | Some (POid _), Some (PStr _), Some (PStr _), Some (PTime _) => true
  | _, _, _, _ => false
  end.

Definition wf (w : World) : Prop := forallb doc_okb (kyc_collection w) = true.

(** The stored submission a [kyc_id] designates. *)
Definition submission_by_id (w : World) (kyc_id : string) : option dict :=
  if (Nat.eqb (String.length kyc_id) 24 && string_forallb is_hex kyc_id)%bool
  then List.find (matches [("_id", POid (string_map lower kyc_id))])
                 (kyc_collection w)
  else None.

Definition owned_by (user_id : string) (d : dict) : bool :=
  matches [("user_id", PStr user_id)] d.

Definition has_status (status : string) (d : dict) : bool :=
  match dict_get "status" d with
  | Some v => pyval_eqb v (PStr status)
  | None => false
  end.

(** Pending or approved. *)
Definition is_active (d : dict) : bool :=
  match dict_get "status" d with
  | Some v => in_strings v ["pending"; "approved"]
  | None => false
  end.

(** The stored submissions of a user, in the order of the store. *)
Definition submissions_of (user_id : string) (w : World) : list dict :=
  filter (owned_by user_id) (kyc_collection w).

Definition active_count (user_id : string) (w : World) : nat :=
  List.length (filter is_active (submissions_of user_id w)).

(** What [stringify_id] does to a document that has an [_id]. *)
Definition str_id (d : dict) : dict :=
  match dict_get "_id" d with
  | Some id => dict_set "_id" (PStr (py_str id)) d
  | None => d
  end.

(** A computation whose every run relates the world before to the world
    after by [R]. *)
Definition keeps (R : World -> World -> Prop) {A} (m : M A) : Prop :=
  forall w, R w (snd (m w)).

(** The three relations used with [keeps]: the submissions are left as they
    were; the face verification log is left as it was; a store that answers
    goes on answering. *)
Definition R_kyc (w w' : World) : Prop := kyc_collection w' = kyc_collection w.

Definition R_fv (w w' : World) : Prop :=
  face_verification_collection w' = face_verification_collection w.

Definition R_health (w w' : World) : Prop := healthy w -> healthy w'.


(** The document [create_kyc_submission] stores for [kyc_data] in world [w]. *)
Definition stored_submission (kyc_data : dict) (w : World) : dict :=
  ("_id", POid (hex_fixed 24 (oid_counter w)))
    :: dict_pop "_id"
         (dict_set "verification_attempts" (PInt 0)
            (dict_set "status" (PStr "pending")
               (dict_set "submission_date" (PTime (clock w)) kyc_data))).

(** The list after [update_one]: the first document that satisfies [p] is
    replaced by its image under [f]. *)
Fixpoint replace_first (p : dict -> bool) (f : dict -> dict) (l : list dict)
  : list dict :=
  match l with
  | [] => []
  | d :: r => if p d then f d :: r else d :: replace_first p f r
  end.

(** The fields [update_kyc_status] sets. *)
Definition status_update (status : string) (now : Z) (admin_notes : string) : dict :=
  [("status", PStr status); ("status_updated_at", PTime now);
   ("admin_notes", PStr admin_notes)].

(** The filter [{'_id': ObjectId(kyc_id)}]. *)
Definition by_oid (kyc_id : string) : dict :=
  [("_id", POid (string_map lower kyc_id))].

(** ** Histories *)

(** The clock moves between requests. *)
Definition set_clock (t : Z) (w : World) : World :=
  mkWorld (kyc_collection w) (face_verification_collection w)
          (blockchain_collection w) (oid_counter w) (entropy w) t (db_faults w).

(** One request to the service, or the passing of time. *)
Inductive step (C : Collab) : World -> World -> Prop :=
| step_submit u data w : step C w (snd (submit_kyc C u data w))
| step_status u w : step C w (snd (get_kyc_status u w))
| step_decide k a dcs n w : step C w (snd (verify_kyc_submission C k a dcs n w))
| step_update k u data w : step C w (snd (update_kyc_submission C k u data w))
| step_details k u adm w : step C w (snd (get_kyc_details k u adm w))
| step_face u img w : step C w (snd (perform_face_verification C u img w))
| step_tick t w : clock w <= t -> step C w (set_clock t w).

(** The worlds the service reaches from an empty store, one request after
    the other, when no call to the store fails on the way.  (A request served
    while the store fails is outside these histories.) *)
Inductive reachable (C : Collab) : World -> Prop :=
| reach_start n e t : reachable C (mkWorld [] [] [] n e t [])
| reach_step w w' : reachable C w -> step C w w' -> reachable C w'.

(** What a request can do to the stored submissions. *)
Inductive kyc_change (w w' : World) : Prop :=
| kyc_same : kyc_collection w' = kyc_collection w -> kyc_change w w'
| kyc_new u d :
    filter is_active (submissions_of u w) = [] ->
    kyc_collection w' = (kyc_collection w ++ [d])%list ->
    doc_okb d = true -> dict_get "user_id" d = Some (PStr u) ->
    dict_get "status" d = Some (PStr "pending") ->
    kyc_change w w'
| kyc_decided l1 d l2 dcs t notes :
    kyc_collection w = (l1 ++ d :: l2)%list ->
    kyc_collection w' =
      (l1 ++ dict_merge d (status_update dcs t notes) :: l2)%list ->
    dict_get "status" d = Some (PStr "pending") ->
    (dcs = "approved" \/ dcs = "rejected") ->
    kyc_change w w'.

(** At most one submission of each user is pending or approved. *)
Definition one_active (w : World) : Prop :=
  forall u, (active_count u w <= 1)%nat.

(** The submission date of a stored submission, as [get_kyc_status] reads it. *)
Definition submission_date_of (d : dict) : Z :=
  match dict_get "submission_date" d with
  | Some (PTime t) => t
  | _ => datetime_min
  end.

(** A face rectangle whose area fits [numpy.int32]; every rectangle inside a
    picture of fewer than [2^31] pixels is one. *)
Definition fits_int32 (r : rect) : Prop :=
  let '(_, _, w, h) := r in 0 <= w /\ 0 <= h /\ w * h < 2 ^ 31.

(** Width times height. *)
Definition area (r : rect) : Z := let '(_, _, w, h) := r in w * h.

(** The dictionary inside an answer. *)
Definition as_dict (v : pyval) : dict :=
  match v with PDict d => d | _ => [] end.

(* ================================================================== *)
(** * A small deployment, for examples *)

Module Demo.

(** Pictures are kept by the face rectangles a detector finds in them; the
    string of a picture decides them. *)
Definition decode (v : pyval) : outcome (list rect) :=
  match v with
  | PStr s =>
      if String.eqb s "blank" then Return []
      else if String.eqb s "pair"
           then Return [(0, 0, 60, 60); (100, 0, 80, 90)]
      else if String.eqb s "corrupt"
           then Raise (ExternalError "cannot identify image file")
      else Return [(10, 10, 120, 120)]
  | _ => Raise TypeError
  end.

(** Permissive validators, a detector that reads the rectangles off the
    picture, a model that compares the areas of the two faces; the chain client
    is the parameter. *)
Definition collab (tx : World -> dict -> outcome pyval) : Collab :=
  mkCollab (fun _ => true) (fun _ => true) (fun _ => true) (fun _ => true)
           (fun _ => true) (fun _ => true) (fun _ _ => true) (fun _ => true)
           (fun _ => true)
           (fun n => "uuid-" ++ hex_fixed 4 n)
           (fun n _ => Return (PStr ("sha256:" ++ hex_fixed 4 n)))
           (list rect) Z
           decode
           (fun _ => (480, 640))
           (fun img => Return img)
           (fun _ r => [r])
           (fun _ => Return (150 # 1))
           (fun img => Return (match img with
                               | (_, _, w, h) :: _ => w * h
                               | [] => 0
                               end))
           (fun a b => Some (if a =? b then 9 # 10 else 2 # 10))
           true true
           (fun _ _ _ => PStr "vh")
           tx.

(** A node that cannot be reached, one that refuses, one that mines. *)
Definition node_down : World -> dict -> outcome pyval :=
  fun _ _ => Raise (ExternalError "node unreachable").

Definition node_refuses : World -> dict -> outcome pyval :=
  fun _ _ => Return (PDict [("success", PBool false);
                            ("message", PStr "out of gas")]).

Definition node_up : World -> dict -> outcome pyval :=
  fun _ _ => Return (PDict [("success", PBool true);
                            ("transaction_hash", PStr "0xabc");
                            ("block_number", PInt 7)]).

Definition C0 : Collab := collab node_down.

Definition form : dict :=
  [("full_name", PStr "Ada Lovelace"); ("date_of_birth", PStr "1815-12-10");
   ("gender", PStr "female"); ("nationality", PStr "British");
   ("address", PStr "12 St James Square, London");
   ("phone_number", PStr "0123456789"); ("email", PStr "a@b.com");
   ("document_type", PStr "passport"); ("document_number", PStr "X1234567");
   ("face_image", PStr "ada")].

Definition run {A} (m : M A) (w : World) : World := snd (m w).

Definition with_faults (faults : list bool) (w : World) : World :=
  mkWorld (kyc_collection w) (face_verification_collection w)
          (blockchain_collection w) (oid_counter w) (entropy w) (clock w) faults.

(** The first two identifiers the store hands out. *)
Definition id0 : string := hex_fixed 24 0.
Definition id1 : string := hex_fixed 24 1.

(** An empty store; then user [u1] submits, and an admin decides. *)
Definition start : World := mkWorld [] [] [] 0 0 1000 [].

Definition submitted : World := run (submit_kyc C0 "u1" form) start.

Definition approved : World :=
  run (verify_kyc_submission C0 id0 "admin" "approved" None)
      (set_clock 2000 submitted).

Definition rejected : World :=
  run (verify_kyc_submission C0 id0 "admin" "rejected" (Some "blurry document"))
      (set_clock 2000 submitted).

(** After the approval, one read of the store fails while [u1] submits again;
    the second submission is approved too. *)
Definition resubmitted : World :=
  run (submit_kyc C0 "u1" form) (with_faults [true] (set_clock 3000 approved)).

Definition two_approved : World :=
  run (verify_kyc_submission C0 id1 "admin" "approved" None)
      (set_clock 4000 resubmitted).

(** The patch of the user whose document was judged blurry. *)
Definition corrected_document : dict :=
  [("identity_documents", PDict [("document_image", PStr "sharper scan")])].



End Demo.

(* ================================================================== *)
(** * Properties *)

(** ** Dictionaries *)

Lemma dict_get_set_eq (k : string) (v : pyval) (d : dict) :
  dict_get k (dict_set k v d) = Some v.
Proof.
  induction d as [|[k' v'] d IH]; simpl.
  - now rewrite String.eqb_refl.
  - destruct (String.eqb k' k) eqn:E; simpl.
    + now rewrite String.eqb_refl.
    + now rewrite E.
Qed.

Lemma dict_get_set_neq (k k' : string) (v : pyval) (d : dict) :
  String.eqb k' k = false -> dict_get k (dict_set k' v d) = dict_get k d.
Proof.
  intros N. induction d as [|[k0 v0] d IH]; simpl.
  - now rewrite N.
  - destruct (String.eqb k0 k') eqn:E; simpl.
    + apply String.eqb_eq in E. subst k0. now rewrite N.
    + now rewrite IH.
Qed.

Lemma dict_get_pop_eq (k : string) (d : dict) : dict_get k (dict_pop k d) = None.
Proof.
  unfold dict_pop. induction d as [|[k' v'] d IH]; simpl; [reflexivity|].
  destruct (String.eqb k' k) eqn:E; simpl; [assumption|].
  now rewrite E.
Qed.

Lemma dict_get_pop_neq (k k' : string) (d : dict) :
  String.eqb k' k = false -> dict_get k (dict_pop k' d) = dict_get k d.
Proof.
  intros N. unfold dict_pop. induction d as [|[k0 v0] d IH]; simpl; [reflexivity|].
  destruct (String.eqb k0 k') eqn:E; simpl.
  - apply String.eqb_eq in E. subst k0. now rewrite N.
  - now rewrite IH.
Qed.

Lemma dict_has_pop (k : string) (d : dict) : dict_has k (dict_pop k d) = false.
Proof. unfold dict_has. now rewrite dict_get_pop_eq. Qed.

Lemma dict_get_str_id (k : string) (d : dict) :
  String.eqb "_id" k = false -> dict_get k (str_id d) = dict_get k d.
Proof.
  intros N. unfold str_id. destruct (dict_get "_id" d); [|reflexivity].
  now apply dict_get_set_neq.
Qed.

(** ** Computations that leave part of the world alone *)

Section Frames.
Variable R : World -> World -> Prop.
Hypothesis R_refl : forall w, R w w.
Hypothesis R_trans : forall a b c, R a b -> R b c -> R a c.

Lemma keeps_ret {A} (a : A) : keeps R (ret a).
Proof. intro w. apply R_refl. Qed.

Lemma keeps_raise {A} (e : exn) : keeps R (@raise A e).
Proof. intro w. apply R_refl. Qed.

Lemma keeps_lift {A} (o : outcome A) : keeps R (lift o).
Proof. intro w. apply R_refl. Qed.

Lemma keeps_get_world : keeps R get_world.
Proof. intro w. apply R_refl. Qed.

Lemma keeps_utcnow : keeps R utcnow.
Proof. intro w. apply R_refl. Qed.

Lemma keeps_utcnow_seconds : keeps R utcnow_seconds.
Proof. intro w. apply R_refl. Qed.

Lemma keeps_subscript (d : dict) (k : string) : keeps R (subscript d k).
Proof. intro w. unfold subscript. destruct (dict_get k d); apply R_refl. Qed.

Lemma keeps_bind {A B} (m : M A) (k : A -> M B) :
  keeps R m -> (forall a, keeps R (k a)) -> keeps R (bind m k).
Proof.
  intros Hm Hk w. unfold bind. specialize (Hm w).
  destruct (m w) as [[a|e] w1]; simpl in *; [|assumption].
  eapply R_trans; [exact Hm|apply Hk].
Qed.

Lemma keeps_try {A} (m : M A) (h : exn -> M A) :
  keeps R m -> (forall e, keeps R (h e)) -> keeps R (try_except m h).
Proof.
  intros Hm Hh w. unfold try_except. specialize (Hm w).
  destruct (m w) as [[a|e] w1]; simpl in *; [assumption|].
  eapply R_trans; [exact Hm|apply Hh].
Qed.

Lemma keeps_for_each {A B} (f : A -> M B) (l : list A) :
  (forall a, keeps R (f a)) -> keeps R (for_each f l).
Proof.
  intros Hf. induction l as [|x r IH]; simpl.
  - apply keeps_ret.
  - apply keeps_bind; [apply Hf|]. intro y.
    apply keeps_bind; [exact IH|]. intro ys. apply keeps_ret.
Qed.

End Frames.

Ltac rel :=
  solve [ unfold R_kyc, R_fv, R_health, healthy in *; intros;
          (reflexivity || congruence || auto) ].

Ltac prim :=
  intro w;
  unfold R_kyc, R_fv, R_health, healthy, round_trip, fresh_oid, draw,
    append_doc, with_docs, docs;
  try (let H := fresh in intro H; rewrite ?H);
  simpl;
  repeat match goal with
         | |- context [match ?x with _ => _ end] => destruct x; simpl
         end;
  auto; try congruence.

Lemma round_trip_kyc : keeps R_kyc round_trip.
Proof. prim. Qed.

Lemma round_trip_fv : keeps R_fv round_trip.
Proof. prim. Qed.

Lemma round_trip_health : keeps R_health round_trip.
Proof. prim. Qed.

Lemma fresh_oid_kyc : keeps R_kyc fresh_oid.
Proof. prim. Qed.

Lemma fresh_oid_fv : keeps R_fv fresh_oid.
Proof. prim. Qed.

Lemma fresh_oid_health : keeps R_health fresh_oid.
Proof. prim. Qed.

Lemma draw_kyc : keeps R_kyc draw.
Proof. prim. Qed.

Lemma draw_fv : keeps R_fv draw.
Proof. prim. Qed.

Lemma draw_health : keeps R_health draw.
Proof. prim. Qed.

Lemma append_doc_health (c : coll) (d : dict) : keeps R_health (append_doc c d).
Proof. destruct c; prim. Qed.

Lemma append_fv_kyc (d : dict) : keeps R_kyc (append_doc face_verifications d).
Proof. prim. Qed.

Lemma append_chain_kyc (d : dict) : keeps R_kyc (append_doc blockchain_transactions d).
Proof. prim. Qed.

Lemma append_chain_fv (d : dict) : keeps R_fv (append_doc blockchain_transactions d).
Proof. prim. Qed.

Lemma append_kyc_fv (d : dict) : keeps R_fv (append_doc kyc_submissions d).
Proof. prim. Qed.

Lemma update_one_health (c : coll) (q upd : dict) : keeps R_health (update_one c q upd).
Proof.
  intro w. unfold update_one, bind, R_health, healthy, round_trip.
  destruct (db_faults w) as [|b rest] eqn:E; simpl; [|discriminate].
  destruct (update_first q upd (docs c w)) as [l n]. simpl.
  destruct c; simpl; auto.
Qed.

Lemma update_kyc_fv (q upd : dict) : keeps R_fv (update_one kyc_submissions q upd).
Proof.
  intro w. unfold update_one, bind, R_fv, round_trip.
  destruct (db_faults w) as [|[|] rest]; simpl; auto;
    destruct (update_first q upd _) as [l n]; reflexivity.
Qed.

Create HintDb frames.
#[export] Hint Resolve round_trip_kyc round_trip_fv round_trip_health
  fresh_oid_kyc fresh_oid_fv fresh_oid_health draw_kyc draw_fv draw_health
  append_doc_health append_fv_kyc append_chain_kyc append_chain_fv append_kyc_fv
  update_one_health update_kyc_fv : frames.

Lemma ObjectId_keeps (R : World -> World -> Prop) (s : string) :
  (forall w, R w w) -> keeps R (ObjectId s).
Proof. intros Rr w. unfold ObjectId. destruct (_ && _)%bool; apply Rr. Qed.

(** One step of a frame proof: follow the shape of the computation. *)
Ltac frame_step :=
  cbv beta;
  first
    [ assumption
    | rel
    | solve [eauto with frames]
    | apply keeps_ret
    | apply keeps_raise
    | apply keeps_lift
    | apply keeps_get_world
    | apply keeps_utcnow
    | apply keeps_utcnow_seconds
    | apply keeps_subscript
    | apply ObjectId_keeps
    | apply keeps_bind
    | apply keeps_try
    | apply keeps_for_each
    | match goal with
      | |- keeps _ (match ?x with _ => _ end) => destruct x
      | |- keeps _ (if ?x then _ else _) => destruct x
      | |- forall _, _ => intro
      end ].

Ltac frame := repeat frame_step.

Section PrimitiveFrames.
Variable R : World -> World -> Prop.
Hypothesis R_refl : forall w, R w w.
Hypothesis R_trans : forall a b c, R a b -> R b c -> R a c.
Hypothesis R_round_trip : keeps R round_trip.

Lemma find_keeps (c : coll) (q : dict) : keeps R (find c q).
Proof. unfold find. frame. Qed.

Lemma find_one_keeps (c : coll) (q : dict) : keeps R (find_one c q).
Proof. unfold find_one. frame. Qed.

Lemma stringify_id_keeps (d : dict) : keeps R (stringify_id d).
Proof. unfold stringify_id. frame. Qed.

Lemma get_kyc_submission_by_id_keeps (kyc_id : string) :
  keeps R (get_kyc_submission_by_id kyc_id).
Proof.
  unfold get_kyc_submission_by_id.
  pose proof find_one_keeps. pose proof stringify_id_keeps. frame.
Qed.

Lemma get_kyc_submissions_by_user_keeps (user_id : string) :
  keeps R (get_kyc_submissions_by_user user_id).
Proof.
  unfold get_kyc_submissions_by_user.
  pose proof find_keeps. pose proof stringify_id_keeps. frame.
Qed.

End PrimitiveFrames.

Lemma R_kyc_refl w : R_kyc w w.
Proof. rel. Qed.

Lemma R_kyc_trans a b c : R_kyc a b -> R_kyc b c -> R_kyc a c.
Proof. rel. Qed.

Lemma R_fv_refl w : R_fv w w.
Proof. rel. Qed.

Lemma R_fv_trans a b c : R_fv a b -> R_fv b c -> R_fv a c.
Proof. rel. Qed.

Lemma R_health_refl w : R_health w w.
Proof. rel. Qed.

Lemma R_health_trans a b c : R_health a b -> R_health b c -> R_health a c.
Proof. rel. Qed.

#[export] Hint Resolve R_kyc_refl R_kyc_trans R_fv_refl R_fv_trans
  R_health_refl R_health_trans : frames.
#[export] Hint Resolve find_keeps find_one_keeps stringify_id_keeps
  get_kyc_submission_by_id_keeps get_kyc_submissions_by_user_keeps : frames.

(** *** The repository *)

Lemma insert_one_health (c : coll) (d : dict) : keeps R_health (insert_one c d).
Proof. unfold insert_one. frame. Qed.

Lemma insert_fv_kyc (d : dict) : keeps R_kyc (insert_one face_verifications d).
Proof. unfold insert_one. frame. Qed.

Lemma insert_chain_kyc (d : dict) : keeps R_kyc (insert_one blockchain_transactions d).
Proof. unfold insert_one. frame. Qed.

Lemma insert_chain_fv (d : dict) : keeps R_fv (insert_one blockchain_transactions d).
Proof. unfold insert_one. frame. Qed.

Lemma insert_kyc_fv (d : dict) : keeps R_fv (insert_one kyc_submissions d).
Proof. unfold insert_one. frame. Qed.

#[export] Hint Resolve insert_one_health insert_fv_kyc insert_chain_kyc
  insert_chain_fv insert_kyc_fv : frames.

Lemma create_kyc_submission_health d : keeps R_health (create_kyc_submission d).
Proof. unfold create_kyc_submission. frame. Qed.

Lemma create_kyc_submission_fv d : keeps R_fv (create_kyc_submission d).
Proof. unfold create_kyc_submission. frame. Qed.

Lemma create_face_verification_health d : keeps R_health (create_face_verification d).
Proof. unfold create_face_verification. frame. Qed.

Lemma create_face_verification_kyc d : keeps R_kyc (create_face_verification d).
Proof. unfold create_face_verification. frame. Qed.

Lemma create_blockchain_transaction_health d :
  keeps R_health (create_blockchain_transaction d).
Proof. unfold create_blockchain_transaction. frame. Qed.

Lemma create_blockchain_transaction_kyc d :
  keeps R_kyc (create_blockchain_transaction d).
Proof. unfold create_blockchain_transaction. frame. Qed.

Lemma create_blockchain_transaction_fv d :
  keeps R_fv (create_blockchain_transaction d).
Proof. unfold create_blockchain_transaction. frame. Qed.

Lemma update_kyc_status_health k s n : keeps R_health (update_kyc_status k s n).
Proof. unfold update_kyc_status. frame. Qed.

Lemma update_kyc_status_fv k s n : keeps R_fv (update_kyc_status k s n).
Proof. unfold update_kyc_status. frame. Qed.

#[export] Hint Resolve create_kyc_submission_health create_kyc_submission_fv
  create_face_verification_health create_face_verification_kyc
  create_blockchain_transaction_health create_blockchain_transaction_kyc
  create_blockchain_transaction_fv update_kyc_status_health
  update_kyc_status_fv : frames.

(** *** The chain and face services *)

Lemma field_keeps R v k : (forall w, R w w) -> keeps R (field v k).
Proof. intros Rr. unfold field. destruct v; frame. Qed.

Lemma field_get_keeps R v k : (forall w, R w w) -> keeps R (field_get v k).
Proof. intros Rr. unfold field_get. destruct v; frame. Qed.

Lemma result_field_keeps R v k : (forall w, R w w) -> keeps R (result_field v k).
Proof. intros Rr. unfold result_field. destruct v; frame. Qed.

#[export] Hint Resolve field_keeps field_get_keeps result_field_keeps : frames.

Lemma store_kyc_verification_health C u k s a :
  keeps R_health (store_kyc_verification C u k s a).
Proof. unfold store_kyc_verification. frame. Qed.

Lemma store_kyc_verification_kyc C u k s a :
  keeps R_kyc (store_kyc_verification C u k s a).
Proof. unfold store_kyc_verification. frame. Qed.

Lemma store_kyc_verification_fv C u k s a :
  keeps R_fv (store_kyc_verification C u k s a).
Proof. unfold store_kyc_verification. frame. Qed.

#[export] Hint Resolve store_kyc_verification_health store_kyc_verification_kyc
  store_kyc_verification_fv : frames.

Lemma first_approved_keeps R l :
  (forall w, R w w) -> (forall a b c, R a b -> R b c -> R a c) ->
  keeps R (first_approved l).
Proof. intros Rr Rt. induction l as [|d r IH]; simpl; frame. Qed.

Lemma first_active_keeps R l :
  (forall w, R w w) -> (forall a b c, R a b -> R b c -> R a c) ->
  keeps R (first_active l).
Proof. intros Rr Rt. induction l as [|d r IH]; simpl; frame. Qed.

#[export] Hint Resolve first_approved_keeps first_active_keeps : frames.

Lemma verify_face_with_stored_image_health C u img :
  keeps R_health (verify_face_with_stored_image C u img).
Proof. unfold verify_face_with_stored_image, verify_face_with_stored_image_try.
  frame. Qed.

Lemma verify_face_with_stored_image_kyc C u img :
  keeps R_kyc (verify_face_with_stored_image C u img).
Proof. unfold verify_face_with_stored_image, verify_face_with_stored_image_try.
  frame. Qed.

(** *** The service *)

Lemma anchor_on_chain_health C d k a : keeps R_health (anchor_on_chain C d k a).
Proof. unfold anchor_on_chain. frame. Qed.

Lemma anchor_on_chain_kyc C d k a : keeps R_kyc (anchor_on_chain C d k a).
Proof. unfold anchor_on_chain. frame. Qed.

Lemma anchor_on_chain_fv C d k a : keeps R_fv (anchor_on_chain C d k a).
Proof. unfold anchor_on_chain. frame. Qed.

#[export] Hint Resolve anchor_on_chain_health anchor_on_chain_kyc
  anchor_on_chain_fv verify_face_with_stored_image_health
  verify_face_with_stored_image_kyc : frames.

Lemma submit_kyc_health C u d : keeps R_health (submit_kyc C u d).
Proof. unfold submit_kyc, submit_kyc_try. frame. Qed.

Lemma get_kyc_status_health u : keeps R_health (get_kyc_status u).
Proof. unfold get_kyc_status, get_kyc_status_try. frame. Qed.

Lemma get_kyc_status_kyc u : keeps R_kyc (get_kyc_status u).
Proof. unfold get_kyc_status, get_kyc_status_try. frame. Qed.

Lemma verify_kyc_submission_health C k a dcs n :
  keeps R_health (verify_kyc_submission C k a dcs n).
Proof. unfold verify_kyc_submission, verify_kyc_submission_try. frame. Qed.

Lemma merge_mappings_keeps R a b : (forall w, R w w) -> keeps R (merge_mappings a b).
Proof. intros Rr. unfold merge_mappings. destruct a, b; frame. Qed.

#[export] Hint Resolve merge_mappings_keeps : frames.

Lemma update_kyc_submission_health C k u d :
  keeps R_health (update_kyc_submission C k u d).
Proof. unfold update_kyc_submission, update_kyc_submission_try. frame. Qed.

Lemma pop_document_number_keeps R d : (forall w, R w w) -> keeps R (pop_document_number d).
Proof. intros Rr. unfold pop_document_number. frame. Qed.

#[export] Hint Resolve pop_document_number_keeps : frames.

Lemma get_kyc_details_health k u a : keeps R_health (get_kyc_details k u a).
Proof. unfold get_kyc_details. frame. Qed.

Lemma get_kyc_details_kyc k u a : keeps R_kyc (get_kyc_details k u a).
Proof. unfold get_kyc_details. frame. Qed.

Lemma perform_face_verification_health C u img :
  keeps R_health (perform_face_verification C u img).
Proof. unfold perform_face_verification. frame. Qed.

Lemma perform_face_verification_kyc C u img :
  keeps R_kyc (perform_face_verification C u img).
Proof. unfold perform_face_verification. frame. Qed.

(** ** Structured answers *)

















(** ** The repository over a store that answers *)

Lemma round_trip_healthy w : healthy w -> round_trip w = (Return tt, w).
Proof. unfold healthy, round_trip. intros H. now rewrite H. Qed.

Lemma find_healthy c q w :
  healthy w -> find c q w = (Return (filter (matches q) (docs c w)), w).
Proof. intros H. unfold find, bind. now rewrite round_trip_healthy. Qed.

Lemma find_one_healthy c q w :
  healthy w -> find_one c q w = (Return (List.find (matches q) (docs c w)), w).
Proof. intros H. unfold find_one, bind. now rewrite round_trip_healthy. Qed.

Lemma doc_ok_fields d :
  doc_okb d = true ->
  exists h u st t,
    dict_get "_id" d = Some (POid h) /\ dict_get "user_id" d = Some (PStr u) /\
    dict_get "status" d = Some (PStr st) /\
    dict_get "submission_date" d = Some (PTime t).
Proof.
  unfold doc_okb. intros H.
  destruct (dict_get "_id" d) as [[]|]; try discriminate.
  destruct (dict_get "user_id" d) as [[]|]; try discriminate.
  destruct (dict_get "status" d) as [[]|]; try discriminate.
  destruct (dict_get "submission_date" d) as [[]|]; try discriminate.
  repeat eexists.
Qed.

Lemma stringify_id_ok d w :
  dict_get "_id" d <> None -> stringify_id d w = (Return (str_id d), w).
Proof.
  intros H. unfold stringify_id, str_id, bind, subscript.
  destruct (dict_get "_id" d); [reflexivity|contradiction].
Qed.

Lemma for_each_stringify l w :
  forallb doc_okb l = true ->
  for_each stringify_id l w = (Return (map str_id l), w).
Proof.
  induction l as [|d r IH]; simpl; intros H; [reflexivity|].
  apply andb_prop in H. destruct H as [Hd Hr].
  destruct (doc_ok_fields d Hd) as (h & _ & _ & _ & Hid & _).
  unfold bind. rewrite stringify_id_ok by congruence. now rewrite IH.
Qed.

Lemma forallb_filter {A} (p q : A -> bool) l :
  forallb p l = true -> forallb p (filter q l) = true.
Proof.
  induction l as [|x r IH]; simpl; [auto|]. intros H.
  apply andb_prop in H. destruct H as [Hx Hr].
  destruct (q x); simpl; [rewrite Hx|]; auto.
Qed.

Lemma get_kyc_submissions_by_user_healthy u w :
  healthy w -> wf w ->
  get_kyc_submissions_by_user u w = (Return (map str_id (submissions_of u w)), w).
Proof.
  intros H W. unfold get_kyc_submissions_by_user, try_except, bind.
  rewrite find_healthy by assumption. simpl.
  fold (owned_by u). fold (submissions_of u w).
  rewrite for_each_stringify; [reflexivity|].
  apply forallb_filter. exact W.
Qed.

Lemma matches_id d h :
  matches [("_id", POid h)] d = true ->
  exists h', dict_get "_id" d = Some (POid h').
Proof.
  unfold matches. simpl. destruct (dict_get "_id" d) as [[]|]; simpl;
    try discriminate. eauto.
Qed.

Lemma find_some_matches {A} (p : A -> bool) l x :
  List.find p l = Some x -> p x = true /\ In x l.
Proof. intros H. apply find_some in H. tauto. Qed.

(** Whatever the store does, a lookup by id leaves the submissions alone and
    finds nothing or the designated submission. *)
Lemma get_kyc_submission_by_id_cases kyc_id w :
  exists r w',
    get_kyc_submission_by_id kyc_id w = (Return r, w') /\
    kyc_collection w' = kyc_collection w /\
    (r = None \/
     exists d, r = Some (str_id d) /\ submission_by_id w kyc_id = Some d).
Proof.
  assert (N : forall w1, kyc_collection w1 = kyc_collection w ->
    exists r w', @ret (option dict) None w1 = (Return r, w') /\
      kyc_collection w' = kyc_collection w /\
      (r = None \/
       exists d, r = Some (str_id d) /\ submission_by_id w kyc_id = Some d)).
  { intros w1 K. exists None, w1. auto. }
  unfold get_kyc_submission_by_id, ObjectId, try_except, bind.
  destruct (_ && _)%bool eqn:V; simpl; [|now apply N].
  unfold find_one, bind.
  pose proof (round_trip_kyc w) as K. unfold R_kyc in K.
  destruct (round_trip w) as [[[]|e] w1]; simpl in *; [|now apply N].
  rewrite K.
  destruct (List.find _ (kyc_collection w)) as [d|] eqn:F; simpl; [|now apply N].
  destruct (find_some_matches _ _ _ F) as [Hm _].
  destruct (matches_id _ _ Hm) as [h' Hid].
  destruct d as [|kv d']; [discriminate Hid|]. cbn [py_truthy].
  rewrite stringify_id_ok by congruence. simpl.
  exists (Some (str_id (kv :: d'))), w1. split; [reflexivity|]. split; [exact K|].
  right. exists (kv :: d'). split; [reflexivity|].
  unfold submission_by_id. now rewrite V.
Qed.

Lemma get_kyc_submission_by_id_healthy kyc_id w :
  healthy w ->
  get_kyc_submission_by_id kyc_id w =
    (Return (option_map str_id (submission_by_id w kyc_id)), w).
Proof.
  intros H.
  unfold get_kyc_submission_by_id, submission_by_id, ObjectId, try_except, bind.
  destruct (_ && _)%bool; simpl; [|reflexivity].
  rewrite find_one_healthy by assumption. simpl.
  destruct (List.find _ (kyc_collection w)) as [d|] eqn:F; simpl; [|reflexivity].
  destruct (find_some_matches _ _ _ F) as [Hm _].
  destruct (matches_id _ _ Hm) as [h' Hid].
  destruct d as [|kv d']; [discriminate Hid|]. cbn [py_truthy].
  now rewrite stringify_id_ok by congruence.
Qed.

Lemma is_active_str_id d : is_active (str_id d) = is_active d.
Proof. unfold is_active. now rewrite dict_get_str_id. Qed.

Lemma first_active_run l w :
  forallb doc_okb l = true ->
  exists r,
    first_active (map str_id l) w = (Return r, w) /\
    (r = None <-> filter is_active l = []).
Proof.
  induction l as [|d rest IH]; simpl; intros H.
  - exists None. split; [reflexivity|tauto].
  - apply andb_prop in H. destruct H as [Hd Hr].
    destruct (doc_ok_fields d Hd) as (h & u & st & t & _ & _ & Hst & _).
    unfold bind, subscript. rewrite dict_get_str_id by reflexivity.
    rewrite Hst. unfold is_active at 1 2. rewrite Hst. simpl.
    destruct ((st =? "pending")%string || _)%bool.
    + exists (Some (PStr st)). split; [reflexivity|]. split; discriminate.
    + exact (IH Hr).
Qed.

Lemma validate_image_quality_valid C v :
  exists b, dict_get "valid" (validate_image_quality C v) = Some (PBool b) /\
            (b = false ->
             exists m, dict_get "message" (validate_image_quality C v) = Some (PStr m)).
Proof.
  unfold validate_image_quality, quality_failure.
  repeat match goal with
         | |- context [match ?x with _ => _ end] => destruct x
         end;
    (eexists; split; [reflexivity|]); intros; try discriminate; eexists; reflexivity.
Qed.

Lemma owned_by_iff u d :
  owned_by u d = true <-> dict_get "user_id" d = Some (PStr u).
Proof.
  unfold owned_by, matches. simpl.
  destruct (dict_get "user_id" d) as [[]|]; simpl; split; intros H;
    try discriminate; try (inversion H; subst); rewrite ?andb_true_r in *.
  - apply String.eqb_eq in H. now subst.
  - now rewrite String.eqb_refl.
Qed.

Ltac red_in E :=
  cbv beta iota delta [ret raise lift fst snd] in E;
  cbn [kyc_collection face_verification_collection blockchain_collection
       oid_counter entropy clock db_faults] in E.

Lemma create_kyc_submission_healthy d w :
  healthy w -> dict_get "_id" d = None ->
  exists id w1,
    create_kyc_submission d w = (Return id, w1) /\
    kyc_collection w1 = (kyc_collection w ++ [stored_submission d w])%list.
Proof.
  intros H N. unfold healthy in H.
  unfold create_kyc_submission, try_except, bind, utcnow, insert_one, bind.
  rewrite !dict_get_set_neq by reflexivity. rewrite N.
  unfold fresh_oid, round_trip. cbn [db_faults]. rewrite H.
  cbv beta iota delta [ret append_doc with_docs docs fst snd]. cbn.
  eexists _, _. split; reflexivity.
Qed.
(** The last steps of [submit_kyc], once every check has passed. *)
Ltac submit_tail C E H :=
  unfold draw in E; red_in E;
  match type of E with
  | context [hash_sensitive_data C ?a ?b] =>
      destruct (hash_sensitive_data C a b) as [hashed|e]
  end; red_in E;
  [ unfold utcnow in E; red_in E;
    match type of E with
    | context [create_kyc_submission ?d ?w1] =>
        let id := fresh "id" in
        let w2 := fresh "w2" in
        let Hc := fresh "Hc" in
        let Hk := fresh "Hk" in
        destruct (create_kyc_submission_healthy d w1) as (id & w2 & Hc & Hk);
        [exact H | reflexivity | rewrite Hc in E];
        red_in E; inversion E; subst; right;
        split; [assumption|]; split; [reflexivity|];
        eexists; split; [exact Hk|]; repeat split
    end
  | inversion E; subst; left; split; reflexivity ].

Lemma submit_kyc_effect C u data w r w' :
  healthy w -> wf w ->
  submit_kyc C u data w = (r, w') ->
  (kyc_collection w' = kyc_collection w /\ is_success r = false)
  \/ (filter is_active (submissions_of u w) = [] /\
      is_success r = true /\
      exists d, kyc_collection w' = (kyc_collection w ++ [d])%list /\
                doc_okb d = true /\ dict_get "user_id" d = Some (PStr u) /\
                dict_get "status" d = Some (PStr "pending")).
Proof.
  intros H W E. unfold submit_kyc, submit_kyc_try, try_except, bind in E.
  unfold validate_kyc_data in E.
  cbn [subscript dict_get String.eqb Ascii.eqb Bool.eqb] in E.
  remember (validation_errors C data false) as errs.
  red_in E.
  destruct (Nat.eqb (Datatypes.length errs) 0); cbn [py_truthy negb] in E; red_in E.
  2:{ inversion E; subst. left. split; reflexivity. }
  rewrite get_kyc_submissions_by_user_healthy in E by assumption. red_in E.
  destruct (first_active_run (submissions_of u w) w) as (a & Ha & Hnone).
  { apply forallb_filter. exact W. }
  rewrite Ha in E. red_in E.
  destruct a as [st|].
  { inversion E; subst. left. split; reflexivity. }
  assert (Hn : filter is_active (submissions_of u w) = []) by (now apply Hnone).
  clear Hnone Ha.
  destruct (dict_get "face_image" data) as [f|]; red_in E.
  - destruct (validate_image_quality_valid C f) as (b & Hb & Hm).
    unfold subscript in E. rewrite Hb in E. red_in E.
    destruct b; cbn [py_truthy negb] in E; red_in E.
    + submit_tail C E H.
    + destruct (Hm eq_refl) as [m Hmsg]. rewrite Hmsg in E. red_in E.
      inversion E; subst. left. split; reflexivity.
  - cbn [subscript dict_get String.eqb Ascii.eqb Bool.eqb] in E. red_in E.
    cbn [py_truthy negb] in E. red_in E. submit_tail C E H.
Qed.

Lemma update_first_fst q upd l :
  fst (update_first q upd l) = replace_first (matches q) (fun d => dict_merge d upd) l.
Proof.
  induction l as [|d r IH]; simpl; [reflexivity|].
  destruct (matches q d); simpl; [reflexivity|].
  destruct (update_first q upd r). simpl in *. now rewrite IH.
Qed.

Lemma update_first_snd q upd l :
  snd (update_first q upd l) =
    match List.find (matches q) l with
    | Some d => if set_changes upd d then 1 else 0
    | None => 0
    end.
Proof.
  induction l as [|d r IH]; simpl; [reflexivity|].
  destruct (matches q d); simpl; [reflexivity|].
  destruct (update_first q upd r). simpl in *. now rewrite IH.
Qed.

Lemma anchor_on_chain_returns C d k a w :
  exists w1, anchor_on_chain C d k a w = (Return tt, w1).
Proof.
  unfold anchor_on_chain, try_except.
  match goal with
  | |- context [let (_, _) := ?m w in _] => destruct (m w) as [[[]|e] w1]
  end; eexists; reflexivity.
Qed.

Lemma submission_by_id_valid w k d :
  submission_by_id w k = Some d ->
  ObjectId k = ret (POid (string_map lower k)) /\
  List.find (matches (by_oid k)) (kyc_collection w) = Some d.
Proof.
  unfold submission_by_id, ObjectId, by_oid.
  destruct (_ && _)%bool; [|discriminate]. auto.
Qed.

(** Deciding a pending submission: the status is written unless the store
    fails, and it is written when the store answers. *)
Lemma update_kyc_status_pending k s n w d :
  submission_by_id w k = Some d ->
  dict_get "status" d = Some (PStr "pending") ->
  String.eqb "pending" s = false ->
  py_truthy (PStr n) = true ->
  exists b w1,
    update_kyc_status k s (Some n) w = (Return b, w1) /\
    clock w1 = clock w /\
    (healthy w -> b = true /\ healthy w1) /\
    kyc_collection w1 =
      (if b then replace_first (matches (by_oid k))
                  (fun d => dict_merge d (status_update s (clock w) n))
                  (kyc_collection w)
       else kyc_collection w).
Proof.
  intros F S N T. destruct (submission_by_id_valid _ _ _ F) as [Hoid Hfind].
  unfold update_kyc_status, try_except, bind, utcnow. rewrite T. cbn [dict_set String.eqb Ascii.eqb Bool.eqb].
  cbv beta iota delta [ret fst snd]. rewrite Hoid. cbv beta iota delta [ret].
  unfold update_one, bind, round_trip.
  pose proof (update_first_fst (by_oid k) (status_update s (clock w) n)
                (kyc_collection w)) as U1.
  pose proof (update_first_snd (by_oid k) (status_update s (clock w) n)
                (kyc_collection w)) as U2.
  rewrite Hfind in U2.
  assert (Ch : set_changes (status_update s (clock w) n) d = true).
  { unfold set_changes, status_update. cbn [existsb fst snd]. rewrite S.
    cbn [pyval_eqb]. rewrite N. reflexivity. }
  rewrite Ch in U2. fold (by_oid k). unfold status_update in *.
  destruct (db_faults w) as [|[|] rest] eqn:Ef; cbv beta iota delta [ret];
    cbn [docs with_docs kyc_collection db_faults clock];
    try (destruct (update_first _ _ _) as [l m]; simpl in U1, U2; subst m l);
    [exists true | exists false | exists true];
    (eexists; split; [reflexivity|];
     cbn [kyc_collection clock db_faults];
     split; [reflexivity|]; split; [|reflexivity];
     unfold healthy; cbn [db_faults]; intros Hh; try congruence; auto).
Qed.

Lemma pyval_eqb_str v s : pyval_eqb v (PStr s) = true -> v = PStr s.
Proof.
  destruct v; simpl; try discriminate. intros H. apply String.eqb_eq in H. now subst.
Qed.

Lemma submission_by_id_ext w w1 k :
  kyc_collection w1 = kyc_collection w ->
  submission_by_id w1 k = submission_by_id w k.
Proof. intros K. unfold submission_by_id. now rewrite K. Qed.

Lemma found_has_id w k d :
  submission_by_id w k = Some d -> exists h, dict_get "_id" d = Some (POid h).
Proof.
  intros F. destruct (submission_by_id_valid _ _ _ F) as [_ Hf].
  apply find_some_matches in Hf. destruct Hf as [Hm _].
  exact (matches_id _ _ Hm).
Qed.

Lemma str_id_truthy w k d :
  submission_by_id w k = Some d -> py_truthy (PDict (str_id d)) = true.
Proof.
  intros F. destruct (found_has_id _ _ _ F) as [h Hid].
  unfold str_id. rewrite Hid. destruct d as [|[k0 v0] d']; [discriminate|].
  simpl. destruct (String.eqb k0 "_id"); reflexivity.
Qed.

Lemma decision_not_pending dcs :
  in_strings (PStr dcs) ["approved"; "rejected"] = true ->
  (dcs = "approved" \/ dcs = "rejected") /\ String.eqb "pending" dcs = false.
Proof.
  unfold in_strings. cbn [existsb pyval_eqb]. intros H.
  apply orb_true_iff in H. destruct H as [H|H].
  - apply String.eqb_eq in H. subst. auto.
  - rewrite orb_false_r in H. apply String.eqb_eq in H. subst. auto.
Qed.

(** The admin note [verify_kyc_submission] writes. *)
Lemma decide_effect C k a dcs n w r w' :
  verify_kyc_submission C k a dcs n w = (r, w') ->
  (kyc_collection w' = kyc_collection w /\ is_success r = false)
  \/ (is_success r = true /\
      (dcs = "approved" \/ dcs = "rejected") /\
      exists d t notes,
        submission_by_id w k = Some d /\
        dict_get "status" d = Some (PStr "pending") /\
        kyc_collection w' =
          replace_first (matches (by_oid k))
            (fun d => dict_merge d (status_update dcs t notes))
            (kyc_collection w)).
Proof.
  intros E. unfold verify_kyc_submission, verify_kyc_submission_try,
    try_except, bind in E.
  destruct (in_strings (PStr dcs) ["approved"; "rejected"]) eqn:D;
    cbn [negb] in E; red_in E.
  2:{ inversion E; subst. left. split; reflexivity. }
  destruct (decision_not_pending _ D) as [Hd Hnp].
  destruct (get_kyc_submission_by_id_cases k w) as (o & w1 & Hg & Hk & Ho).
  rewrite Hg in E. red_in E.
  destruct Ho as [-> | (d & -> & Hs)].
  { inversion E; subst. left. split; [assumption|reflexivity]. }
  rewrite (str_id_truthy _ _ _ Hs) in E. cbn [negb] in E. red_in E.
  unfold subscript at 1 in E. rewrite dict_get_str_id in E by reflexivity.
  destruct (dict_get "status" d) as [st|] eqn:St; red_in E.
  2:{ inversion E; subst. left. split; [assumption|reflexivity]. }
  destruct (pyval_eqb st (PStr "pending")) eqn:P; cbn [negb] in E; red_in E.
  2:{ inversion E; subst. left. split; [assumption|reflexivity]. }
  apply pyval_eqb_str in P. subst st.
  match type of E with
  | context [update_kyc_status k dcs (Some ?notes) w1] =>
      destruct (update_kyc_status_pending k dcs notes w1 d)
        as (b & w2 & Hu & Hc & _ & Hk2);
        [ now rewrite (submission_by_id_ext _ _ _ Hk) | assumption | assumption
        | reflexivity | rewrite Hu in E ]
  end.
  red_in E. destruct b; cbn [negb] in E; red_in E.
  2:{ inversion E; subst. left. split; [congruence|reflexivity]. }
  assert (Fin : forall w3, kyc_collection w3 = kyc_collection w2 ->
            kyc_collection w3 =
              replace_first (matches (by_oid k))
                (fun d0 => dict_merge d0
                   (status_update dcs (clock w1)
                      ("Verified by admin " ++ a ++ ". " ++
                       match n with
                       | Some n0 => if py_truthy (PStr n0) then n0 else EmptyString
                       | None => EmptyString
                       end)))
                (kyc_collection w)).
  { intros w3 K3. rewrite K3, Hk2, Hk. reflexivity. }
  destruct (String.eqb dcs "approved").
  - destruct (anchor_on_chain_returns C (str_id d) k a w2) as [w3 Ha].
    pose proof (anchor_on_chain_kyc C (str_id d) k a w2) as K.
    unfold R_kyc in K. rewrite Ha in K, E. red_in E.
    inversion E; subst. right. split; [reflexivity|]. split; [assumption|].
    exists d. eexists _, _. split; [assumption|]. split; [assumption|].
    apply Fin. exact K.
  - red_in E. inversion E; subst. right. split; [reflexivity|]. split; [assumption|].
    exists d. eexists _, _. split; [assumption|]. split; [assumption|].
    apply Fin. reflexivity.
Qed.

Lemma update_first_nomatch q upd l :
  forallb (fun d => negb (matches q d)) l = true -> update_first q upd l = (l, 0).
Proof.
  induction l as [|d r IH]; simpl; [reflexivity|]. intros H.
  apply andb_prop in H. destruct H as [Hd Hr].
  destruct (matches q d); [discriminate|]. now rewrite IH.
Qed.

(** No stored submission has a string for [_id]. *)
Lemma wf_no_string_id w s :
  wf w ->
  forallb (fun d => negb (matches [("_id", PStr s)] d)) (kyc_collection w) = true.
Proof.
  unfold wf. induction (kyc_collection w) as [|d r IH]; [reflexivity|].
  cbn [forallb]. intros H. apply andb_prop in H. destruct H as [Hd Hr].
  rewrite (IH Hr), andb_true_r.
  destruct (doc_ok_fields d Hd) as (h & _ & _ & _ & Hid & _).
  unfold matches. simpl. now rewrite Hid.
Qed.

Lemma merge_mappings_cases a b w :
  (exists m, merge_mappings a b w = (Return m, w)) \/
  (exists e, merge_mappings a b w = (Raise e, w)).
Proof.
  unfold merge_mappings.
  destruct a, b;
    ((left; eexists; reflexivity) || (right; eexists; reflexivity)).
Qed.

Lemma update_one_string_id upd w h :
  forallb (fun d => negb (matches [("_id", PStr h)] d)) (kyc_collection w) = true ->
  exists o w1,
    update_one kyc_submissions [("_id", PStr h)] upd w = (o, w1) /\
    kyc_collection w1 = kyc_collection w /\
    (o = Return 0 \/ exists e, o = Raise e).
Proof.
  intros N. unfold update_one, bind.
  pose proof (round_trip_kyc w) as K. unfold R_kyc in K.
  destruct (round_trip w) as [[[]|e] w2]; simpl in K.
  - cbn [docs]. rewrite K. rewrite update_first_nomatch by assumption.
    eexists _, _. split; [reflexivity|]. split; [|left; reflexivity].
    destruct w2; cbn in *. congruence.
  - eexists _, _. split; [reflexivity|]. split; [assumption|]. right. eauto.
Qed.

Ltac failed E K :=
  red_in E; inversion E; subst; split; [exact K | reflexivity].

(** The part of [update_kyc_submission] after the checks. *)
Ltac update_tail E K N :=
  unfold utcnow in E; red_in E;
  match type of E with
  | context [dict_get "personal_info" ?data] =>
      destruct (dict_get "personal_info" data) as [p|]
  end;
  [ match type of E with
    | context [merge_mappings ?a ?b ?w0] =>
        destruct (merge_mappings_cases a b w0) as [[m Hm]|[e Hm]];
        rewrite Hm in E; red_in E; [|failed E K]
    end
  | red_in E ];
  (match type of E with
   | context [dict_get "identity_documents" ?data] =>
       destruct (dict_get "identity_documents" data) as [p'|]
   end;
   [ match type of E with
     | context [merge_mappings ?a ?b ?w0] =>
         destruct (merge_mappings_cases a b w0) as [[m' Hm']|[e' Hm']];
         rewrite Hm' in E; red_in E; [|failed E K]
     end
   | red_in E ]);
  (unfold subscript at 1 in E;
   match goal with
   | Hsid : dict_get "_id" (str_id _) = Some _ |- _ => rewrite Hsid in E
   end;
   red_in E;
   match type of E with
   | context [update_one kyc_submissions [("_id", PStr ?h)] ?upd ?w0] =>
       destruct (update_one_string_id upd w0 h N) as (o & w2 & Hu & Hk2 & Ho);
       rewrite Hu in E;
       destruct Ho as [-> | [e0 ->]]; red_in E; cbn [Z.ltb Z.compare] in E;
       inversion E; subst; (split; [congruence | reflexivity])
   end).

(** [update_kyc_submission] selects the document to update by the string its
    [_id] was turned into, and no stored document has a string there: the
    update matches nothing, and the function answers with a failure. *)
Lemma update_effect C k u data w r w' :
  wf w ->
  update_kyc_submission C k u data w = (r, w') ->
  kyc_collection w' = kyc_collection w /\ is_success r = false.
Proof.
  intros W E. unfold update_kyc_submission, update_kyc_submission_try,
    try_except, bind in E.
  destruct (get_kyc_submission_by_id_cases k w) as (o & w1 & Hg & Hk & Ho).
  rewrite Hg in E. red_in E.
  destruct Ho as [-> | (d & -> & Hs)]; [failed E Hk|].
  rewrite (str_id_truthy _ _ _ Hs) in E. cbn [negb] in E. red_in E.
  unfold subscript at 1 in E. rewrite dict_get_str_id in E by reflexivity.
  destruct (dict_get "user_id" d) as [owner|]; [|failed E Hk]. red_in E.
  destruct (negb (pyval_eqb owner (PStr u))); [failed E Hk|]. red_in E.
  unfold subscript at 1 in E. rewrite dict_get_str_id in E by reflexivity.
  destruct (dict_get "status" d) as [st|]; [|failed E Hk]. red_in E.
  destruct (negb (in_strings st ["pending"; "rejected"])); [failed E Hk|].
  unfold validate_kyc_data in E.
  cbn [subscript dict_get String.eqb Ascii.eqb Bool.eqb] in E. red_in E.
  destruct (negb (py_truthy (PBool _))); [failed E Hk|]. red_in E.
  destruct (found_has_id _ _ _ Hs) as [h Hid].
  assert (Hsid : dict_get "_id" (str_id d) = Some (PStr h)).
  { unfold str_id. rewrite Hid. apply dict_get_set_eq. }
  assert (N : forallb (fun d => negb (matches [("_id", PStr h)] d))
                (kyc_collection w1) = true).
  { rewrite Hk. now apply wf_no_string_id. }
  destruct (dict_get "face_image" data) as [f|] eqn:Ef; red_in E.
  - destruct (validate_image_quality_valid C f) as (b & Hb & Hm0).
    unfold subscript at 1 in E. rewrite Hb in E. red_in E.
    destruct b; cbn [py_truthy negb] in E; red_in E.
    + update_tail E Hk N.
    + destruct (Hm0 eq_refl) as [msg Hmsg]. unfold subscript at 1 in E.
      rewrite Hmsg in E. failed E Hk.
  - cbn [subscript dict_get String.eqb Ascii.eqb Bool.eqb] in E. red_in E.
    cbn [py_truthy negb] in E. red_in E. update_tail E Hk N.
Qed.

(** ** Histories *)

Lemma replace_first_split p f l d :
  List.find p l = Some d ->
  exists l1 l2, l = (l1 ++ d :: l2)%list /\
                replace_first p f l = (l1 ++ f d :: l2)%list.
Proof.
  induction l as [|x r IH]; simpl; [discriminate|].
  destruct (p x) eqn:P.
  - intros E. inversion E; subst. exists [], r. auto.
  - intros E. destruct (IH E) as (l1 & l2 & -> & ->).
    exists (x :: l1), l2. auto.
Qed.

Lemma decided_doc d dcs t notes :
  doc_okb d = true ->
  let d' := dict_merge d (status_update dcs t notes) in
  doc_okb d' = true /\ dict_get "user_id" d' = dict_get "user_id" d /\
  dict_get "status" d' = Some (PStr dcs) /\
  dict_get "submission_date" d' = dict_get "submission_date" d /\
  dict_get "face_image" d' = dict_get "face_image" d /\
  dict_get "_id" d' = dict_get "_id" d.
Proof.
  intros Hd. cbv zeta. unfold dict_merge, status_update. cbn [fold_left fst snd].
  assert (G : forall k, String.eqb "status" k = false ->
                        String.eqb "status_updated_at" k = false ->
                        String.eqb "admin_notes" k = false ->
    dict_get k (dict_set "admin_notes" (PStr notes)
                  (dict_set "status_updated_at" (PTime t)
                     (dict_set "status" (PStr dcs) d))) = dict_get k d).
  { intros k A B D. now rewrite !dict_get_set_neq by assumption. }
  assert (S : dict_get "status"
                (dict_set "admin_notes" (PStr notes)
                   (dict_set "status_updated_at" (PTime t)
                      (dict_set "status" (PStr dcs) d))) = Some (PStr dcs)).
  { rewrite !dict_get_set_neq by reflexivity. apply dict_get_set_eq. }
  repeat split; try (apply G; reflexivity); try exact S.
  unfold doc_okb. rewrite S, !G by reflexivity.
  destruct (doc_ok_fields d Hd) as (h & u & st & t0 & -> & -> & _ & ->).
  reflexivity.
Qed.

Lemma step_change C w w' :
  healthy w -> wf w -> step C w w' -> healthy w' /\ kyc_change w w'.
Proof.
  intros H W S. destruct S.
  - split; [now apply (submit_kyc_health C u data w)|].
    destruct (submit_kyc C u data w) as [r w'] eqn:E. simpl.
    destruct (submit_kyc_effect _ _ _ _ _ _ H W E)
      as [[K _] | (N & _ & d & K & Hd & Hu & Hs)].
    + now apply kyc_same.
    + now apply (kyc_new w w' u d).
  - split; [now apply (get_kyc_status_health u w)|].
    apply kyc_same. apply (get_kyc_status_kyc u w).
  - split; [now apply (verify_kyc_submission_health C k a dcs n w)|].
    destruct (verify_kyc_submission C k a dcs n w) as [r w'] eqn:E. simpl.
    destruct (decide_effect _ _ _ _ _ _ _ _ E)
      as [[K _] | (_ & Hd & d & t & notes & F & St & K)].
    + now apply kyc_same.
    + destruct (submission_by_id_valid _ _ _ F) as [_ Hf].
      destruct (replace_first_split _
                  (fun d0 => dict_merge d0 (status_update dcs t notes)) _ _ Hf)
        as (l1 & l2 & E1 & E2).
      rewrite E2 in K. now apply (kyc_decided w w' l1 d l2 dcs t notes).
  - split; [now apply (update_kyc_submission_health C k u data w)|].
    destruct (update_kyc_submission C k u data w) as [r w'] eqn:E. simpl.
    apply kyc_same. exact (proj1 (update_effect _ _ _ _ _ _ _ W E)).
  - split; [now apply (get_kyc_details_health k u adm w)|].
    apply kyc_same. apply (get_kyc_details_kyc k u adm w).
  - split; [now apply (perform_face_verification_health C u img w)|].
    apply kyc_same. apply (perform_face_verification_kyc C u img w).
  - split; [exact H|]. apply kyc_same. reflexivity.
Qed.

Lemma owned_by_user_id u d d' :
  dict_get "user_id" d' = dict_get "user_id" d -> owned_by u d' = owned_by u d.
Proof. intros E. unfold owned_by, matches. simpl. now rewrite E. Qed.

Lemma actives_app u l1 l2 :
  filter is_active (filter (owned_by u) (l1 ++ l2)) =
    (filter is_active (filter (owned_by u) l1) ++
     filter is_active (filter (owned_by u) l2))%list.
Proof. now rewrite !filter_app. Qed.

Lemma change_preserves w w' :
  wf w -> one_active w -> kyc_change w w' -> wf w' /\ one_active w'.
Proof.
  intros W O Ch. destruct Ch as [K | u d N K Hd Hu Hs | l1 d l2 dcs t notes K1 K2 Hs Hdcs].
  - unfold wf, one_active, active_count, submissions_of in *. rewrite K. auto.
  - split.
    + unfold wf in *. rewrite K, forallb_app, W. simpl. now rewrite Hd.
    + intros u'. specialize (O u').
      unfold active_count, submissions_of in *. rewrite K, actives_app.
      rewrite length_app. cbn [filter].
      destruct (owned_by u' d) eqn:Ow.
      * apply owned_by_iff in Ow. rewrite Hu in Ow. inversion Ow; subst u'.
        rewrite N. cbn [filter]. destruct (is_active d); simpl; lia.
      * simpl. lia.
  - unfold wf in W. rewrite K1, forallb_app in W. cbn [forallb] in W.
    apply andb_prop in W. destruct W as [W1 W2].
    apply andb_prop in W2. destruct W2 as [Wd W2].
    destruct (decided_doc d dcs t notes Wd) as (Ok & Hu & Hst & _).
    split.
    + unfold wf. rewrite K2, forallb_app. cbn [forallb]. now rewrite W1, Ok, W2.
    + intros u'. specialize (O u').
      unfold active_count, submissions_of in *. rewrite K2. rewrite K1 in O.
      rewrite actives_app in *. rewrite length_app in *. cbn [filter] in *.
      rewrite (owned_by_user_id u' d _ Hu).
      destruct (owned_by u' d); [|exact O]. cbn [filter] in *.
      assert (A : is_active d = true) by (unfold is_active; now rewrite Hs).
      rewrite A in O. cbn [Datatypes.length] in O.
      destruct (is_active (dict_merge d (status_update dcs t notes))).
      * change (Datatypes.length
                  (dict_merge d (status_update dcs t notes)
                     :: filter is_active (filter (owned_by u') l2)))
          with (S (Datatypes.length (filter is_active (filter (owned_by u') l2)))).
        exact O.
      * lia.
Qed.

(** The invariant of the histories: the store answers, the stored submissions
    are well formed, and no user has two of them pending or approved. *)
Lemma reachable_invariant C w :
  reachable C w -> healthy w /\ wf w /\ one_active w.
Proof.
  induction 1 as [n e t | w w' R IH S].
  - repeat split. intro u. unfold active_count. simpl. lia.
  - destruct IH as (H & W & O).
    destruct (step_change C w w' H W S) as [H' Ch].
    destruct (change_preserves w w' W O Ch). auto.
Qed.

(** ** The latest submission *)

Lemma submission_date_key_str_id d :
  doc_okb d = true ->
  submission_date_key (str_id d) = PTime (submission_date_of d).
Proof.
  intros Hd. destruct (doc_ok_fields d Hd) as (h & u & st & t & _ & _ & _ & Ht).
  unfold submission_date_key, dict_get_or, submission_date_of.
  rewrite dict_get_str_id by reflexivity. now rewrite Ht.
Qed.

Lemma max_loop_latest best l :
  doc_okb best = true -> forallb doc_okb l = true ->
  exists d,
    In d (best :: l) /\
    max_loop submission_date_key (str_id best) (map str_id l) = Return (str_id d) /\
    submission_date_of best <= submission_date_of d /\
    (forall d', In d' l -> submission_date_of d' <= submission_date_of d).
Proof.
  revert best. induction l as [|x r IH]; intros best Hb Hl.
  - exists best. simpl. split; [now left|]. split; [reflexivity|].
    split; [lia|]. intros d' [].
  - cbn [forallb] in Hl. apply andb_prop in Hl. destruct Hl as [Hx Hr].
    cbn [map max_loop].
    rewrite (submission_date_key_str_id x Hx), (submission_date_key_str_id best Hb).
    cbn [py_gt].
    destruct (submission_date_of best <? submission_date_of x) eqn:Lt.
    + apply Z.ltb_lt in Lt.
      destruct (IH x Hx Hr) as (d & Hin & Hm & Hge & Hall).
      exists d. split; [destruct Hin; [right; left|right; right]; assumption|].
      split; [exact Hm|]. split; [lia|].
      intros d' [<-|Hd']; [assumption|now apply Hall].
    + apply Z.ltb_ge in Lt.
      destruct (IH best Hb Hr) as (d & Hin & Hm & Hge & Hall).
      exists d. split; [destruct Hin; [left|right; right]; assumption|].
      split; [exact Hm|]. split; [assumption|].
      intros d' [<-|Hd']; [lia|now apply Hall].
Qed.

Lemma get_kyc_status_latest u w first rest :
  healthy w -> wf w -> submissions_of u w = first :: rest ->
  exists d res,
    In d (submissions_of u w) /\
    (forall d', In d' (submissions_of u w) ->
                submission_date_of d' <= submission_date_of d) /\
    get_kyc_status u w = (Return (PDict res), w) /\
    dict_get "success" res = Some (PBool true) /\
    dict_get "status" res = dict_get "status" d.
Proof.
  intros H W S.
  assert (Ok : forallb doc_okb (first :: rest) = true).
  { rewrite <- S. apply forallb_filter. exact W. }
  cbn [forallb] in Ok. apply andb_prop in Ok. destruct Ok as [Hf Hr].
  destruct (max_loop_latest first rest Hf Hr) as (d & Hin & Hm & Hge & Hall).
  assert (Hd : doc_okb d = true).
  { destruct Hin as [<-|Hin]; [assumption|].
    rewrite forallb_forall in Hr. now apply Hr. }
  destruct (doc_ok_fields d Hd) as (h & u0 & st & t & Hid & _ & Hst & Ht).
  unfold get_kyc_status, get_kyc_status_try, try_except, bind.
  rewrite get_kyc_submissions_by_user_healthy by assumption. rewrite S.
  cbn [map]. cbv beta iota delta [ret lift]. rewrite Hm.
  assert (I : dict_get "_id" (str_id d) = Some (PStr h)).
  { unfold str_id. rewrite Hid. apply dict_get_set_eq. }
  cbv beta iota delta [ret]. unfold subscript.
  rewrite (dict_get_str_id "status") by reflexivity.
  rewrite (dict_get_str_id "submission_date") by reflexivity.
  rewrite Hst, I, Ht. cbv beta iota delta [ret].
  exists d. eexists. split; [exact Hin|]. split.
  { intros d' Hd'. destruct Hd' as [<-|Hd']; auto. }
  split; [reflexivity|]. split; [reflexivity|]. now rewrite Hst.
Qed.

Lemma get_kyc_status_none u w :
  healthy w -> wf w -> submissions_of u w = [] ->
  get_kyc_status u w =
    (Return (PDict [("success", PBool true); ("status", PStr "not_submitted");
                    ("message", PStr "No KYC submission found")]), w).
Proof.
  intros H W S. unfold get_kyc_status, get_kyc_status_try, try_except, bind.
  rewrite get_kyc_submissions_by_user_healthy by assumption. now rewrite S.
Qed.

(** ** Face verification against the stored picture *)

Lemma has_status_str_id s d : has_status s (str_id d) = has_status s d.
Proof. unfold has_status. now rewrite dict_get_str_id. Qed.

Lemma first_approved_run l w :
  forallb doc_okb l = true ->
  first_approved (map str_id l) w =
    (Return (option_map str_id (List.find (has_status "approved") l)), w).
Proof.
  induction l as [|d rest IH]; intros H; [reflexivity|].
  cbn [forallb] in H. apply andb_prop in H. destruct H as [Hd Hr].
  destruct (doc_ok_fields d Hd) as (h & u & st & t & _ & _ & Hst & _).
  cbn [map first_approved List.find]. unfold bind, subscript.
  rewrite dict_get_str_id by reflexivity. rewrite Hst.
  unfold has_status at 1. rewrite Hst.
  cbv beta iota delta [ret].
  destruct (pyval_eqb (PStr st) (PStr "approved")); [reflexivity|].
  exact (IH Hr).
Qed.

Lemma create_face_verification_healthy data w :
  healthy w -> dict_get "_id" data = None ->
  exists id w1,
    create_face_verification data w = (Return id, w1) /\
    face_verification_collection w1 =
      (face_verification_collection w ++
       [("_id", POid (hex_fixed 24 (oid_counter w)))
          :: dict_pop "_id" (dict_set "verification_date" (PTime (clock w)) data)])%list.
Proof.
  intros H N. unfold healthy in H.
  unfold create_face_verification, try_except, bind, utcnow, insert_one, bind.
  rewrite !dict_get_set_neq by reflexivity. rewrite N.
  unfold fresh_oid, round_trip. cbn [db_faults]. rewrite H.
  cbv beta iota delta [ret append_doc with_docs docs fst snd]. cbn.
  eexists _, _. split; reflexivity.
Qed.

Lemma verify_faces_fields C a b :
  exists dd s p,
    verify_faces C a b = PDict dd /\
    dict_get "similarity_score" dd = Some s /\
    dict_get "is_same_person" dd = Some (PBool p).
Proof.
  unfold verify_faces, face_failure.
  repeat match goal with
         | |- context [match ?x with _ => _ end] => destruct x
         end; eexists _, _, _; repeat split.
Qed.

(** The two ways [verify_face_with_stored_image] can end over a store that
    answers: a record is appended, for the first approved submission of the
    user and two pictures that decode; or nothing is written. *)
Lemma face_effect C u live w r w' :
  healthy w -> wf w ->
  verify_face_with_stored_image C u live w = (r, w') ->
  (exists d face a b rec,
      List.find (has_status "approved") (submissions_of u w) = Some d /\
      dict_get "face_image" d = Some face /\
      _decode_base64_image C live = Some a /\
      _decode_base64_image C face = Some b /\
      r = Return (verify_faces C a b) /\
      face_verification_collection w' =
        (face_verification_collection w ++ [rec])%list /\
      dict_get "user_id" rec = Some (PStr u) /\
      dict_get "kyc_submission_id" rec = dict_get "_id" (str_id d) /\
      dict_get "similarity_score" rec =
        dict_get "similarity_score" (as_dict (verify_faces C a b)) /\
      dict_get "verification_result" rec =
        dict_get "is_same_person" (as_dict (verify_faces C a b)))
  \/ (face_verification_collection w' = face_verification_collection w /\
      is_success r = false /\
      (List.find (has_status "approved") (submissions_of u w) = None
       \/ exists d, List.find (has_status "approved") (submissions_of u w) = Some d /\
            (dict_get "face_image" d = None
             \/ _decode_base64_image C live = None
             \/ exists face, dict_get "face_image" d = Some face /\
                             _decode_base64_image C face = None))).
Proof.
  intros H W E. unfold verify_face_with_stored_image, verify_face_with_stored_image_try,
    try_except, bind in E.
  rewrite get_kyc_submissions_by_user_healthy in E by assumption. red_in E.
  assert (Ok : forallb doc_okb (submissions_of u w) = true)
    by (apply forallb_filter; exact W).
  destruct (submissions_of u w) as [|x rest] eqn:S.
  { cbn [map] in E. red_in E. inversion E; subst. right. auto. }
  cbn [map] in E. cbv iota in E.
  change (str_id x :: map str_id rest) with (map str_id (x :: rest)) in E.
  rewrite first_approved_run in E by assumption.
  destruct (List.find (has_status "approved") (x :: rest)) as [d|] eqn:F;
    cbn [option_map] in E.
  2:{ red_in E. inversion E; subst. right. auto. }
  assert (Hd : doc_okb d = true).
  { apply find_some_matches in F. destruct F as [_ Hin].
    rewrite forallb_forall in Ok. now apply Ok. }
  destruct (doc_ok_fields d Hd) as (h & u0 & st & t & Hid & _).
  assert (T : py_truthy (PDict (str_id d)) = true).
  { unfold str_id. rewrite Hid. destruct d as [|[k0 v0] d0]; [discriminate|].
    simpl. destruct (String.eqb k0 "_id"); reflexivity. }
  assert (I : dict_get "_id" (str_id d) = Some (PStr h)).
  { unfold str_id. rewrite Hid. apply dict_get_set_eq. }
  rewrite T in E. unfold dict_has, subscript in E.
  rewrite (dict_get_str_id "face_image") in E by reflexivity. rewrite I in E.
  destruct (dict_get "face_image" d) as [face|] eqn:Fi; cbn [negb orb] in E; red_in E.
  2:{ inversion E; subst. right. split; [reflexivity|]. split; [reflexivity|].
      right. exists d. auto. }
  destruct (_decode_base64_image C live) as [a|] eqn:Da.
  2:{ red_in E. inversion E; subst. right. split; [reflexivity|]. split; [reflexivity|].
      right. exists d. auto. }
  destruct (_decode_base64_image C face) as [b|] eqn:Db.
  2:{ red_in E. inversion E; subst. right. split; [reflexivity|]. split; [reflexivity|].
      right. exists d. split; [reflexivity|]. right. right. exists face. auto. }
  red_in E.
  destruct (verify_faces_fields C a b) as (dd & s & p & Hv & Hs & Hp).
  rewrite Hv in E. unfold result_field, subscript in E. rewrite Hs, Hp in E.
  red_in E.
  match type of E with
  | context [create_face_verification ?data w] =>
      destruct (create_face_verification_healthy data w H eq_refl)
        as (id & w1 & Hc & Hf)
  end.
  rewrite Hc in E. red_in E. inversion E; subst. left.
  exists d, face, a, b. eexists. split; [reflexivity|]. split; [exact Fi|].
  split; [reflexivity|]. split; [exact Db|]. split; [now rewrite Hv|].
  split; [exact Hf|]. rewrite Hv. cbn [as_dict]. rewrite Hs, Hp, I.
  repeat split.
Qed.

(** ** The largest face *)

Lemma max_by_spec {A} (key : A -> Z) (best : A) (l : list A) :
  In (max_by key best l) (best :: l) /\
  forall x, In x (best :: l) -> key x <= key (max_by key best l).
Proof.
  revert best. induction l as [|y r IH]; intros best; cbn [max_by].
  - split; [now left|]. intros x [<-|[]]. lia.
  - destruct (key best <? key y) eqn:Lt.
    + apply Z.ltb_lt in Lt. destruct (IH y) as [Hin Hmax]. split.
      * destruct Hin as [<-|Hin]; [right; now left|right; now right].
      * intros x [<-|[<-|Hx]].
        -- specialize (Hmax y (or_introl eq_refl)). lia.
        -- apply Hmax. now left.
        -- apply Hmax. now right.
    + apply Z.ltb_ge in Lt. destruct (IH best) as [Hin Hmax]. split.
      * destruct Hin as [<-|Hin]; [now left|right; now right].
      * intros x [<-|[<-|Hx]].
        -- apply Hmax. now left.
        -- specialize (Hmax best (or_introl eq_refl)). lia.
        -- apply Hmax. now right.
Qed.

Lemma area_key_fits r : fits_int32 r -> area_key r = area r.
Proof.
  destruct r as [[[x y] w] h]. unfold fits_int32, area_key, area, wrap32.
  intros (Hw & Hh & Hlt).
  assert (0 <= w * h) by (apply Z.mul_nonneg_nonneg; assumption).
  rewrite Z.mod_small; lia.
Qed.

(** ** Details of a submission *)

Lemma pop_document_number_cases sub w :
  (exists sub',
      pop_document_number sub w = (Return sub', w) /\
      dict_get "admin_notes" sub' = dict_get "admin_notes" sub /\
      match dict_get "identity_documents" sub' with
      | Some (PDict docs) => dict_has "document_number" docs = false
      | Some _ => False
      | None => True
      end)
  \/ (exists e, pop_document_number sub w = (Raise e, w)).
Proof.
  unfold pop_document_number.
  destruct (dict_get "identity_documents" sub) as [[]|] eqn:G;
    try (right; eexists; reflexivity); left; eexists; (split; [reflexivity|]).
  - rewrite dict_get_set_neq by reflexivity. split; [reflexivity|].
    rewrite dict_get_set_eq. apply dict_has_pop.
  - split; [reflexivity|]. now rewrite G.
Qed.

Lemma details_for_users k u w res w' :
  get_kyc_details k u false w = (Return (PDict res), w') ->
  dict_get "success" res = Some (PBool true) ->
  exists sub,
    dict_get "kyc_submission" res = Some (PDict sub) /\
    dict_has "admin_notes" sub = false /\
    match dict_get "identity_documents" sub with
    | Some (PDict docs) => dict_has "document_number" docs = false
    | Some _ => False
    | None => True
    end.
Proof.
  intros E Hs. unfold get_kyc_details, try_except, bind in E.
  destruct (get_kyc_submission_by_id_cases k w) as (o & w1 & Hg & Hk & Ho).
  rewrite Hg in E. red_in E.
  destruct Ho as [-> | (d & -> & Hf)].
  { red_in E. inversion E; subst. discriminate. }
  rewrite (str_id_truthy _ _ _ Hf) in E. cbn [negb andb] in E. red_in E.
  assert (Fin : forall w2 o2 w3,
    (let (o, w'0) := pop_document_number (str_id d) w2 in
     match o with
     | Return a => (Return (dict_pop "admin_notes" a), w'0)
     | Raise e => (Raise e, w'0)
     end) = (o2, w3) ->
    match o2 with
    | Return sub =>
        dict_has "admin_notes" sub = false /\
        match dict_get "identity_documents" sub with
        | Some (PDict docs) => dict_has "document_number" docs = false
        | Some _ => False
        | None => True
        end
    | Raise _ => True
    end).
  { intros w2 o2 w3 E2.
    destruct (pop_document_number_cases (str_id d) w2)
      as [(sub' & Hp & _ & Hdoc) | (e & Hp)]; rewrite Hp in E2;
      inversion E2; subst; [|exact I].
    split; [apply dict_has_pop|].
    now rewrite dict_get_pop_neq by reflexivity. }
  destruct u as [u|].
  - destruct (py_truthy (PStr u)); red_in E.
    + unfold subscript at 1 in E. rewrite dict_get_str_id in E by reflexivity.
      destruct (dict_get "user_id" d) as [owner|]; red_in E.
      2:{ inversion E; subst. discriminate. }
      destruct (negb (pyval_eqb owner (PStr u))); red_in E.
      { inversion E; subst. discriminate. }
      match type of E with
      | context [pop_document_number (str_id d) ?w2] =>
          specialize (Fin w2);
          destruct (let (o, w'0) := pop_document_number (str_id d) w2 in
                    match o with
                    | Return a => (Return (dict_pop "admin_notes" a), w'0)
                    | Raise e => (Raise e, w'0)
                    end) as [[sub|e] w3]
      end.
      * specialize (Fin _ _ eq_refl). inversion E; subst. exists sub. split; [reflexivity|exact Fin].
      * inversion E; subst. discriminate.
    + match type of E with
      | context [pop_document_number (str_id d) ?w2] =>
          specialize (Fin w2);
          destruct (let (o, w'0) := pop_document_number (str_id d) w2 in
                    match o with
                    | Return a => (Return (dict_pop "admin_notes" a), w'0)
                    | Raise e => (Raise e, w'0)
                    end) as [[sub|e] w3]
      end.
      * specialize (Fin _ _ eq_refl). inversion E; subst. exists sub. split; [reflexivity|exact Fin].
      * inversion E; subst. discriminate.
  - red_in E.
    match type of E with
    | context [pop_document_number (str_id d) ?w2] =>
        specialize (Fin w2);
        destruct (let (o, w'0) := pop_document_number (str_id d) w2 in
                  match o with
                  | Return a => (Return (dict_pop "admin_notes" a), w'0)
                  | Raise e => (Raise e, w'0)
                  end) as [[sub|e] w3]
    end.
    + specialize (Fin _ _ eq_refl). inversion E; subst. exists sub. split; [reflexivity|exact Fin].
    + inversion E; subst. discriminate.
Qed.

Lemma details_for_admin k u w d :
  healthy w -> submission_by_id w k = Some d ->
  get_kyc_details k u true w =
    (Return (PDict [("success", PBool true); ("kyc_submission", PDict (str_id d))]), w).
Proof.
  intros H F. unfold get_kyc_details, try_except, bind.
  rewrite get_kyc_submission_by_id_healthy by assumption. rewrite F.
  cbn [option_map]. cbv beta iota delta [ret].
  rewrite (str_id_truthy _ _ _ F). cbn [negb andb].
  destruct u; reflexivity.
Qed.

(** ** Approval and the chain *)

Lemma replace_first_find p f l d :
  List.find p l = Some d -> p (f d) = true ->
  List.find p (replace_first p f l) = Some (f d).
Proof.
  induction l as [|x r IH]; simpl; [discriminate|].
  destruct (p x) eqn:P.
  - intros E Hf. inversion E; subst. simpl. now rewrite Hf.
  - intros E Hf. simpl. rewrite P. now apply IH.
Qed.

Lemma matches_by_oid_merge k d dcs t notes :
  matches (by_oid k) d = true ->
  matches (by_oid k) (dict_merge d (status_update dcs t notes)) = true.
Proof.
  unfold matches, by_oid. cbn [forallb fst snd].
  unfold dict_merge, status_update. cbn [fold_left fst snd].
  now rewrite !dict_get_set_neq by reflexivity.
Qed.

Lemma status_after_merge d dcs t notes :
  dict_get "status" (dict_merge d (status_update dcs t notes)) = Some (PStr dcs).
Proof.
  unfold dict_merge, status_update. cbn [fold_left fst snd].
  rewrite !dict_get_set_neq by reflexivity. apply dict_get_set_eq.
Qed.

(** Approving a pending submission over a store that answers: the status is
    written first; the chain is called in the world where it is written; the
    chain leaves the submissions alone; the answer is a success. *)
Lemma approve_run C k a n w d :
  healthy w -> submission_by_id w k = Some d ->
  dict_get "status" d = Some (PStr "pending") ->
  exists notes w1 w2 d1,
    update_kyc_status k "approved" (Some notes) w = (Return true, w1) /\
    submission_by_id w1 k = Some d1 /\
    dict_get "status" d1 = Some (PStr "approved") /\
    anchor_on_chain C (str_id d) k a w1 = (Return tt, w2) /\
    kyc_collection w2 = kyc_collection w1 /\
    verify_kyc_submission C k a "approved" n w =
      (Return (PDict [("success", PBool true);
                      ("message", PStr "KYC submission approved successfully");
                      ("status", PStr "approved");
                      ("admin_notes", PStr notes)]), w2).
Proof.
  intros H F S.
  set (notes := "Verified by admin " ++ a ++ ". " ++
                match n with
                | Some n0 => if py_truthy (PStr n0) then n0 else EmptyString
                | None => EmptyString
                end).
  destruct (update_kyc_status_pending k "approved" notes w d F S eq_refl eq_refl)
    as (b & w1 & Hu & Hc & Hh & Hk).
  destruct (Hh H) as [-> H1]. clear Hh.
  destruct (anchor_on_chain_returns C (str_id d) k a w1) as [w2 Ha].
  pose proof (anchor_on_chain_kyc C (str_id d) k a w1) as K.
  unfold R_kyc in K. rewrite Ha in K. cbn [snd] in K.
  destruct (submission_by_id_valid _ _ _ F) as [Hoid Hfind].
  exists notes, w1, w2, (dict_merge d (status_update "approved" (clock w) notes)).
  split; [exact Hu|]. split.
  { unfold submission_by_id in F |- *. destruct (_ && _)%bool; [|discriminate].
    rewrite Hk.
    apply (replace_first_find _
             (fun d0 => dict_merge d0 (status_update "approved" (clock w) notes))
             _ d Hfind).
    apply matches_by_oid_merge. apply find_some_matches in Hfind. tauto. }
  split; [apply status_after_merge|]. split; [exact Ha|]. split; [exact K|].
  unfold verify_kyc_submission, verify_kyc_submission_try, try_except, bind.
  cbn [in_strings existsb pyval_eqb String.eqb Ascii.eqb Bool.eqb negb orb].
  rewrite get_kyc_submission_by_id_healthy by assumption. rewrite F.
  cbn [option_map]. cbv beta iota delta [ret].
  rewrite (str_id_truthy _ _ _ F). cbn [negb]. unfold subscript.
  rewrite dict_get_str_id by reflexivity. rewrite S.
  cbv beta iota delta [ret].
  change (negb (pyval_eqb (PStr "pending") (PStr "pending"))) with false.
  cbv beta iota. fold notes. rewrite Hu. cbn [negb].
  cbv beta iota. rewrite Ha. reflexivity.
Qed.

(** ** Refusals of [submit_kyc] *)

Lemma first_active_value l w v w' :
  forallb doc_okb l = true ->
  first_active (map str_id l) w = (Return (Some v), w') ->
  v = PStr "pending" \/ v = PStr "approved".
Proof.
  induction l as [|d rest IH]; intros H E; [discriminate|].
  cbn [forallb] in H. apply andb_prop in H. destruct H as [Hd Hr].
  destruct (doc_ok_fields d Hd) as (h & u & st & t & _ & _ & Hst & _).
  cbn [map first_active] in E. unfold bind, subscript in E.
  rewrite dict_get_str_id in E by reflexivity. rewrite Hst in E.
  cbv beta iota delta [ret] in E.
  destruct (in_strings (PStr st) ["pending"; "approved"]) eqn:A.
  - inversion E; subst. unfold in_strings in A. cbn [existsb pyval_eqb] in A.
    apply orb_true_iff in A. destruct A as [A|A].
    + apply String.eqb_eq in A. subst. now left.
    + rewrite orb_false_r in A. apply String.eqb_eq in A. subst. now right.
  - exact (IH Hr E).
Qed.

Lemma submit_validation C u data w :
  validation_errors C data false <> [] ->
  submit_kyc C u data w =
    (Return (failure ("Validation failed: " ++
                      py_str (PList (map PStr (validation_errors C data false))))), w).
Proof.
  intros N. unfold submit_kyc, submit_kyc_try, try_except, bind, validate_kyc_data.
  cbn [subscript dict_get String.eqb Ascii.eqb Bool.eqb].
  destruct (validation_errors C data false) as [|e r]; [contradiction|].
  reflexivity.
Qed.

Lemma submit_conflict C u data w :
  healthy w -> wf w -> (0 < active_count u w)%nat ->
  validation_errors C data false = [] ->
  exists st,
    (st = "pending" \/ st = "approved") /\
    fst (submit_kyc C u data w) =
      Return (failure ("User already has " ++ st ++ " KYC submission")).
Proof.
  intros H W A V. destruct (submit_kyc C u data w) as [r w'] eqn:E.
  unfold submit_kyc, submit_kyc_try, try_except, bind, validate_kyc_data in E.
  cbn [subscript dict_get String.eqb Ascii.eqb Bool.eqb] in E. rewrite V in E.
  red_in E. cbn [map Datatypes.length Nat.eqb py_truthy negb] in E. red_in E.
  rewrite get_kyc_submissions_by_user_healthy in E by assumption. red_in E.
  assert (Ok : forallb doc_okb (submissions_of u w) = true)
    by (apply forallb_filter; exact W).
  destruct (first_active_run (submissions_of u w) w Ok) as (a & Hr & Hn).
  rewrite Hr in E. red_in E. destruct a as [v|].
  - inversion E; subst. cbn [fst].
    destruct (first_active_value _ _ _ _ Ok Hr) as [-> | ->];
      [exists "pending" | exists "approved"]; auto.
  - unfold active_count in A. rewrite (proj1 Hn eq_refl) in A. simpl in A. lia.
Qed.

Lemma submit_refused C u data w :
  healthy w -> wf w -> (0 < active_count u w)%nat ->
  is_success (fst (submit_kyc C u data w)) = false /\
  kyc_collection (snd (submit_kyc C u data w)) = kyc_collection w.
Proof.
  intros H W A. destruct (submit_kyc C u data w) as [r w'] eqn:E.
  destruct (submit_kyc_effect _ _ _ _ _ _ H W E) as [[K S] | (N & _)].
  - auto.
  - unfold active_count in A. rewrite N in A. simpl in A. lia.
Qed.

(* ================================================================== *)
(** * The claims *)

(** ** C1 *)

(** As long as every call to the store answers, the check of [submit_kyc]
    does what it is there for: in the worlds reached that way no user has more
    than one submission that is pending or approved, and [submit_kyc], called
    for a user who has one, answers with a failure and stores nothing. *)
Lemma one_active_while_the_store_answers (C : Collab) (w : World) :
  reachable C w ->
  (forall u, (active_count u w <= 1)%nat) /\
  (forall u kyc_data,
      (0 < active_count u w)%nat ->
      is_success (fst (submit_kyc C u kyc_data w)) = false /\
      kyc_collection (snd (submit_kyc C u kyc_data w)) = kyc_collection w).
Proof.
  intros R. destruct (reachable_invariant C w R) as (H & W & O).
  split; [exact O|]. intros u kyc_data A.
  exact (submit_refused C u kyc_data w H W A).
Qed.

(** When the read of the store fails, [get_kyc_submissions_by_user] answers
    with the empty list, whatever the user has submitted. *)
Lemma failed_read_answers_nothing (user_id : string) (w : World) (rest : list bool) :
  db_faults w = true :: rest ->
  fst (get_kyc_submissions_by_user user_id w) = Return [].
Proof.
  intros F. unfold get_kyc_submissions_by_user, try_except, find, bind, round_trip.
  rewrite F. reflexivity.
Qed.

(** C1, at the input where the code departs from it.  User [u1] holds an
    approved submission.  While [u1] submits again, the read of the store
    made by [get_kyc_submissions_by_user] fails: the repository answers with
    the empty list, the loop that looks for a pending or approved submission
    runs over nothing, and the new submission is accepted and stored.  [u1]
    now has two active submissions, one approved and one pending. *)
Theorem second_active_submission_after_failed_read :
  let w := Demo.with_faults [true] (set_clock 3000 Demo.approved) in
  let out := submit_kyc Demo.C0 "u1" Demo.form w in
  map (dict_get "status") (submissions_of "u1" w) = [Some (PStr "approved")] /\
  fst (find kyc_submissions [("user_id", PStr "u1")] w) = Raise PyMongoError /\
  fst (get_kyc_submissions_by_user "u1" w) = Return [] /\
  is_success (fst out) = true /\
  map (dict_get "status") (submissions_of "u1" (snd out)) =
    [Some (PStr "approved"); Some (PStr "pending")] /\
  active_count "u1" (snd out) = 2%nat.
Proof. vm_compute. repeat split. Qed.

(** ** C2 *)

(** C2.  Whatever the store does, [verify_kyc_submission] answers with a
    success only when [kyc_id] designates a stored submission whose status is
    pending; when the designated submission is approved or rejected the answer
    is a failure and the stored submissions stay as they were; and after a
    success every further decision on the same submission fails and changes
    nothing. *)
Theorem decide_only_when_pending (C : Collab) (kyc_id admin_id decision : string)
    (notes : option string) (w : World) :
  let out := verify_kyc_submission C kyc_id admin_id decision notes w in
  (is_success (fst out) = true ->
   exists d, submission_by_id w kyc_id = Some d /\
             dict_get "status" d = Some (PStr "pending")) /\
  (forall d st,
      submission_by_id w kyc_id = Some d ->
      dict_get "status" d = Some (PStr st) ->
      st = "approved" \/ st = "rejected" ->
      is_success (fst out) = false /\
      kyc_collection (snd out) = kyc_collection w) /\
  (is_success (fst out) = true ->
   forall admin_id' decision' notes',
     let again :=
       verify_kyc_submission C kyc_id admin_id' decision' notes' (snd out) in
     is_success (fst again) = false /\
     kyc_collection (snd again) = kyc_collection (snd out)).
Proof.
  cbv zeta.
  assert (Decided : forall a dcs n w0 d st,
    submission_by_id w0 kyc_id = Some d ->
    dict_get "status" d = Some (PStr st) ->
    st = "approved" \/ st = "rejected" ->
    is_success (fst (verify_kyc_submission C kyc_id a dcs n w0)) = false /\
    kyc_collection (snd (verify_kyc_submission C kyc_id a dcs n w0)) =
      kyc_collection w0).
  { intros a dcs n w0 d st F S Hst.
    destruct (verify_kyc_submission C kyc_id a dcs n w0) as [r w'] eqn:E.
    destruct (decide_effect _ _ _ _ _ _ _ _ E)
      as [[K Sx] | (_ & _ & d' & t & nt & F' & S' & _)]; [auto|].
    rewrite F in F'. inversion F'; subst d'. rewrite S in S'.
    inversion S'; subst st. destruct Hst; discriminate. }
  destruct (verify_kyc_submission C kyc_id admin_id decision notes w)
    as [r w'] eqn:E. cbn [fst snd].
  split; [|split].
  - intros Su.
    destruct (decide_effect _ _ _ _ _ _ _ _ E)
      as [[_ Sx] | (_ & _ & d & t & nt & F & S & _)]; [congruence|eauto].
  - intros d st F S Hst. pose proof (Decided admin_id decision notes w d st F S Hst) as D.
    rewrite E in D. exact D.
  - intros Su a' dcs' n'.
    destruct (decide_effect _ _ _ _ _ _ _ _ E)
      as [[_ Sx] | (_ & Hd & d & t & nt & F & S & K)]; [congruence|].
    apply (Decided a' dcs' n' w'
             (dict_merge d (status_update decision t nt)) decision).
    + destruct (submission_by_id_valid _ _ _ F) as [_ Hf].
      unfold submission_by_id in F |- *.
      destruct (_ && _)%bool; [|discriminate]. rewrite K.
      apply (replace_first_find _
               (fun d0 => dict_merge d0 (status_update decision t nt)) _ d Hf).
      apply matches_by_oid_merge. apply find_some_matches in Hf. tauto.
    + apply status_after_merge.
    + exact Hd.
Qed.

Lemma decide_only_when_pending_witness :
  is_success (fst (verify_kyc_submission Demo.C0 Demo.id0 "admin" "rejected"
                     None Demo.approved)) = false /\
  kyc_collection (snd (verify_kyc_submission Demo.C0 Demo.id0 "admin" "rejected"
                         None Demo.approved)) = kyc_collection Demo.approved.
Proof.
  refine (proj1 (proj2 (decide_only_when_pending Demo.C0 Demo.id0 "admin"
                          "rejected" None Demo.approved))
                (hd [] (kyc_collection Demo.approved)) "approved" _ _ _).
  - vm_compute. reflexivity.
  - vm_compute. reflexivity.
  - left. reflexivity.
Defined.

(** ** C3 *)

(** C3.  Over a store that answers, approving a pending submission writes the
    status first: [update_kyc_status] runs in the world of the request and
    leaves a world [w1] where the submission is approved.  The chain is
    called in [w1]; whatever the chain client does there (it may raise, refuse
    or succeed, [C] being any collaborator) the submissions are the same
    afterwards, the submission is still approved, and the answer of
    [verify_kyc_submission] is a success. *)
Theorem approval_survives_anchor_failure (C : Collab)
    (kyc_id admin_id : string) (notes : option string) (w : World) (d : dict) :
  healthy w ->
  submission_by_id w kyc_id = Some d ->
  dict_get "status" d = Some (PStr "pending") ->
  exists admin_notes w1 w2 d1,
    update_kyc_status kyc_id "approved" (Some admin_notes) w = (Return true, w1) /\
    submission_by_id w1 kyc_id = Some d1 /\
    dict_get "status" d1 = Some (PStr "approved") /\
    anchor_on_chain C (str_id d) kyc_id admin_id w1 = (Return tt, w2) /\
    submission_by_id w2 kyc_id = Some d1 /\
    verify_kyc_submission C kyc_id admin_id "approved" notes w =
      (Return (PDict [("success", PBool true);
                      ("message", PStr "KYC submission approved successfully");
                      ("status", PStr "approved");
                      ("admin_notes", PStr admin_notes)]), w2).
Proof.
  intros H F S.
  destruct (approve_run C kyc_id admin_id notes w d H F S)
    as (nt & w1 & w2 & d1 & Hu & F1 & S1 & Ha & K & Hv).
  exists nt, w1, w2, d1. repeat (split; [assumption|]).
  split; [|exact Hv]. now rewrite (submission_by_id_ext w1 w2 kyc_id K).
Qed.

Lemma approval_survives_anchor_failure_witness :
  exists admin_notes w1 w2 d1,
    update_kyc_status Demo.id0 "approved" (Some admin_notes)
      (set_clock 2000 Demo.submitted) = (Return true, w1) /\
    submission_by_id w1 Demo.id0 = Some d1 /\
    dict_get "status" d1 = Some (PStr "approved") /\
    anchor_on_chain Demo.C0 (str_id (hd [] (kyc_collection Demo.submitted)))
      Demo.id0 "admin" w1 = (Return tt, w2) /\
    submission_by_id w2 Demo.id0 = Some d1 /\
    verify_kyc_submission Demo.C0 Demo.id0 "admin" "approved" None
      (set_clock 2000 Demo.submitted) =
      (Return (PDict [("success", PBool true);
                      ("message", PStr "KYC submission approved successfully");
                      ("status", PStr "approved");
                      ("admin_notes", PStr admin_notes)]), w2).
Proof.
  apply (approval_survives_anchor_failure Demo.C0 Demo.id0 "admin" None
           (set_clock 2000 Demo.submitted)
           (hd [] (kyc_collection Demo.submitted))).
  - reflexivity.
  - vm_compute. reflexivity.
  - vm_compute. reflexivity.
Defined.

(** In the deployment of the examples the node cannot be reached or refuses:
    the chain service reports a failure each time. *)
Example anchoring_fails_in_the_examples :
  fst (store_kyc_verification Demo.C0 (PStr "u1") Demo.id0 true "admin"
         Demo.submitted) =
    Return (chain_failure "Blockchain storage failed due to system error") /\
  fst (store_kyc_verification (Demo.collab Demo.node_refuses) (PStr "u1")
         Demo.id0 true "admin" Demo.submitted) =
    Return (chain_failure "Blockchain transaction failed: out of gas").
Proof. split; vm_compute; reflexivity. Qed.

(** A node that mines: the approval is also recorded among the blockchain
    transactions.  The approval itself is the same. *)
Example anchoring_recorded_when_the_node_mines :
  let out := verify_kyc_submission (Demo.collab Demo.node_up) Demo.id0 "admin"
               "approved" None (set_clock 2000 Demo.submitted) in
  is_success (fst out) = true /\
  kyc_collection (snd out) = kyc_collection Demo.approved /\
  map (dict_get "transaction_hash") (blockchain_collection (snd out)) =
    [Some (PStr "0xabc")] /\
  blockchain_collection Demo.approved = [].
Proof. vm_compute. repeat split. Qed.

(** ** C4 *)

(** [update_kyc_submission] never answers with a success and never changes a
    stored submission: it selects the document by [{'_id': kyc_submission['_id']}]
    after [get_kyc_submission_by_id] has replaced that [_id] by its string, and
    the store holds [ObjectId]s. *)
Lemma update_never_succeeds (C : Collab) (kyc_id user_id : string)
    (update_data : dict) (w : World) :
  wf w ->
  is_success (fst (update_kyc_submission C kyc_id user_id update_data w)) = false /\
  kyc_collection (snd (update_kyc_submission C kyc_id user_id update_data w)) =
    kyc_collection w.
Proof.
  intros W.
  destruct (update_kyc_submission C kyc_id user_id update_data w) as [r w'] eqn:E.
  destruct (update_effect _ _ _ _ _ _ _ W E). auto.
Qed.

(** C4, at the input where the code departs from it.  A submission was
    rejected for a blurry document; its owner sends a corrected document
    image.  The patch passes partial validation, the submission is rejected
    and owned by the caller, and yet the answer is the failure "No changes
    were made to KYC submission" and the status stays rejected. *)
Theorem update_of_rejected_submission_fails :
  let w := set_clock 3000 Demo.rejected in
  let out := update_kyc_submission Demo.C0 Demo.id0 "u1"
               Demo.corrected_document w in
  option_map (dict_get "status") (submission_by_id w Demo.id0) =
    Some (Some (PStr "rejected")) /\
  option_map (dict_get "user_id") (submission_by_id w Demo.id0) =
    Some (Some (PStr "u1")) /\
  validation_errors Demo.C0 Demo.corrected_document true = [] /\
  fst out = Return (failure "No changes were made to KYC submission") /\
  snd out = w /\
  option_map (dict_get "status") (submission_by_id (snd out) Demo.id0) =
    Some (Some (PStr "rejected")).
Proof. vm_compute. repeat split. Qed.

(** ** C5 *)

(** C5.  Over a store that answers and holds well-formed submissions,
    [get_kyc_status] answers ['not_submitted'] for a user without submissions,
    and otherwise the status of one of the user's submissions whose
    submission date no other submission of the user exceeds. *)
Theorem status_of_latest_submission (user_id : string) (w : World) :
  healthy w -> wf w ->
  (submissions_of user_id w = [] ->
   fst (get_kyc_status user_id w) =
     Return (PDict [("success", PBool true); ("status", PStr "not_submitted");
                    ("message", PStr "No KYC submission found")])) /\
  (submissions_of user_id w <> [] ->
   exists d res,
     In d (submissions_of user_id w) /\
     (forall d', In d' (submissions_of user_id w) ->
                 submission_date_of d' <= submission_date_of d) /\
     fst (get_kyc_status user_id w) = Return (PDict res) /\
     dict_get "success" res = Some (PBool true) /\
     dict_get "status" res = dict_get "status" d).
Proof.
  intros H W. split.
  - intros S. now rewrite (get_kyc_status_none user_id w H W S).
  - intros N. destruct (submissions_of user_id w) as [|first rest] eqn:S;
      [contradiction|].
    destruct (get_kyc_status_latest user_id w first rest H W S)
      as (d & res & Hin & Hmax & Hg & Hs & Hst).
    exists d, res. rewrite S in Hin, Hmax. rewrite Hg. auto.
Qed.

Lemma status_of_latest_submission_witness :
  fst (get_kyc_status "nobody" Demo.two_approved) =
    Return (PDict [("success", PBool true); ("status", PStr "not_submitted");
                   ("message", PStr "No KYC submission found")]) /\
  exists d res,
    In d (submissions_of "u1" Demo.two_approved) /\
    (forall d', In d' (submissions_of "u1" Demo.two_approved) ->
                submission_date_of d' <= submission_date_of d) /\
    fst (get_kyc_status "u1" Demo.two_approved) = Return (PDict res) /\
    dict_get "success" res = Some (PBool true) /\
    dict_get "status" res = dict_get "status" d.
Proof.
  split.
  - apply (proj1 (status_of_latest_submission "nobody" Demo.two_approved
                    eq_refl eq_refl)).
    vm_compute. reflexivity.
  - apply (proj2 (status_of_latest_submission "u1" Demo.two_approved
                    eq_refl eq_refl)).
    vm_compute. discriminate.
Defined.

(** ** C6 *)

(** C6.  Over a store that answers and holds well-formed submissions,
    [verify_face_with_stored_image] appends exactly one record to the face
    verification log when the first approved submission of the user has a
    face image and both pictures decode, whatever the detector and the model
    answer; the record names the user and that submission and carries the
    score and the verdict of [verify_faces].  It appends nothing when no
    approved submission of the user has a face image, and nothing when the
    live picture or the stored one does not decode. *)
Theorem face_verification_record (C : Collab) (user_id : string)
    (live_image : pyval) (w : World) :
  healthy w -> wf w ->
  let out := verify_face_with_stored_image C user_id live_image w in
  let approved_kyc :=
    List.find (has_status "approved") (submissions_of user_id w) in
  (forall d face a b,
      approved_kyc = Some d ->
      dict_get "face_image" d = Some face ->
      _decode_base64_image C live_image = Some a ->
      _decode_base64_image C face = Some b ->
      exists rec,
        face_verification_collection (snd out) =
          (face_verification_collection w ++ [rec])%list /\
        fst out = Return (verify_faces C a b) /\
        dict_get "user_id" rec = Some (PStr user_id) /\
        dict_get "kyc_submission_id" rec = dict_get "_id" (str_id d) /\
        dict_get "similarity_score" rec =
          dict_get "similarity_score" (as_dict (verify_faces C a b)) /\
        dict_get "verification_result" rec =
          dict_get "is_same_person" (as_dict (verify_faces C a b))) /\
  ((forall d, In d (submissions_of user_id w) ->
              has_status "approved" d = true ->
              dict_get "face_image" d = None) ->
   face_verification_collection (snd out) = face_verification_collection w /\
   is_success (fst out) = false) /\
  (_decode_base64_image C live_image = None ->
   face_verification_collection (snd out) = face_verification_collection w /\
   is_success (fst out) = false) /\
  (forall d face,
      approved_kyc = Some d ->
      dict_get "face_image" d = Some face ->
      _decode_base64_image C face = None ->
      face_verification_collection (snd out) = face_verification_collection w /\
      is_success (fst out) = false).
Proof.
  intros H W. cbv zeta.
  destruct (verify_face_with_stored_image C user_id live_image w)
    as [r w'] eqn:E. cbn [fst snd].
  destruct (face_effect C user_id live_image w r w' H W E)
    as [(d0 & face0 & a0 & b0 & rec & F & Fi & Da & Db & Hr & Hf & R1 & R2 & R3 & R4)
       | (Hf & Hs & _)].
  - split; [|split; [|split]].
    + intros d face a b F' Fi' Da' Db'.
      rewrite F in F'. inversion F'; subst d0.
      rewrite Fi in Fi'. inversion Fi'; subst face0.
      rewrite Da in Da'. inversion Da'; subst a0.
      rewrite Db in Db'. inversion Db'; subst b0.
      exists rec. auto 10.
    + intros No. apply find_some_matches in F. destruct F as [Ha Hin].
      rewrite (No d0 Hin Ha) in Fi. discriminate.
    + intros Dn. rewrite Da in Dn. discriminate.
    + intros d face F' Fi' Dn. rewrite F in F'. inversion F'; subst d0.
      rewrite Fi in Fi'. inversion Fi'; subst face0.
      rewrite Db in Dn. discriminate.
  - split; [|auto].
    intros d face a b F' Fi' Da' Db'.
    destruct (face_effect C user_id live_image w r w' H W E)
      as [(d0 & face0 & a0 & b0 & rec & F & Fi & Da & Db & Hr & Hf2 & R1 & R2 & R3 & R4)
         | (_ & _ & [N | (d1 & F1 & [N | [N | (f1 & Fi1 & N)]])])].
    + rewrite F in F'. inversion F'; subst d0.
      rewrite Fi in Fi'. inversion Fi'; subst face0.
      rewrite Da in Da'. inversion Da'; subst a0.
      rewrite Db in Db'. inversion Db'; subst b0.
      exists rec. auto 10.
    + congruence.
    + rewrite F1 in F'. inversion F'; subst d1. congruence.
    + congruence.
    + rewrite F1 in F'. inversion F'; subst d1.
      rewrite Fi1 in Fi'. inversion Fi'; subst f1. congruence.
Qed.

Lemma face_verification_record_witness :
  exists rec,
    face_verification_collection
      (snd (verify_face_with_stored_image Demo.C0 "u1" (PStr "blank")
              Demo.approved)) =
      (face_verification_collection Demo.approved ++ [rec])%list /\
    fst (verify_face_with_stored_image Demo.C0 "u1" (PStr "blank")
           Demo.approved) =
      Return (verify_faces Demo.C0 [] [(10, 10, 120, 120)]) /\
    dict_get "user_id" rec = Some (PStr "u1") /\
    dict_get "kyc_submission_id" rec =
      dict_get "_id" (str_id (hd [] (kyc_collection Demo.approved))) /\
    dict_get "similarity_score" rec =
      dict_get "similarity_score"
        (as_dict (verify_faces Demo.C0 [] [(10, 10, 120, 120)])) /\
    dict_get "verification_result" rec =
      dict_get "is_same_person"
        (as_dict (verify_faces Demo.C0 [] [(10, 10, 120, 120)])).
Proof.
  apply (proj1 (face_verification_record Demo.C0 "u1" (PStr "blank")
                  Demo.approved eq_refl eq_refl)
           (hd [] (kyc_collection Demo.approved)) (PStr "ada")).
  - vm_compute. reflexivity.
  - vm_compute. reflexivity.
  - vm_compute. reflexivity.
  - vm_compute. reflexivity.
Defined.

(** ** C7 *)

(** C7, at the input where the code departs from it.  User [u1] has two
    approved submissions, stored in the order they were made, with submission
    dates 1000 and 3000.  The face check writes a record for the first one,
    not for the one submitted last. *)
Theorem face_check_uses_oldest_approved :
  let w := set_clock 5000 Demo.two_approved in
  let out := verify_face_with_stored_image Demo.C0 "u1" (PStr "ada") w in
  map (dict_get "_id") (submissions_of "u1" w) =
    [Some (POid Demo.id0); Some (POid Demo.id1)] /\
  map (dict_get "status") (submissions_of "u1" w) =
    [Some (PStr "approved"); Some (PStr "approved")] /\
  map submission_date_of (submissions_of "u1" w) = [1000; 3000] /\
  is_success (fst out) = true /\
  map (dict_get "kyc_submission_id") (face_verification_collection (snd out)) =
    [Some (PStr Demo.id0)].
Proof. vm_compute. repeat split. Qed.

(** The same on any store: the submission used is the first approved one in
    the order of the store, whatever the dates. *)
Lemma face_check_uses_first_approved (C : Collab) (user_id : string)
    (live_image : pyval) (w : World) (d : dict) (face : pyval) (a b : Image C) :
  healthy w -> wf w ->
  List.find (has_status "approved") (submissions_of user_id w) = Some d ->
  dict_get "face_image" d = Some face ->
  _decode_base64_image C live_image = Some a ->
  _decode_base64_image C face = Some b ->
  exists rec,
    face_verification_collection
      (snd (verify_face_with_stored_image C user_id live_image w)) =
      (face_verification_collection w ++ [rec])%list /\
    dict_get "kyc_submission_id" rec = dict_get "_id" (str_id d).
Proof.
  intros H W F Fi Da Db.
  destruct (verify_face_with_stored_image C user_id live_image w)
    as [r w'] eqn:E. cbn [snd].
  destruct (face_effect C user_id live_image w r w' H W E)
    as [(d0 & face0 & a0 & b0 & rec & F0 & _ & _ & _ & _ & Hf & _ & R2 & _)
       | (_ & _ & [N | (d1 & F1 & [N | [N | (f1 & Fi1 & N)]])])].
  - rewrite F in F0. inversion F0; subst d0. eauto.
  - congruence.
  - rewrite F in F1. inversion F1; subst d1. congruence.
  - congruence.
  - rewrite F in F1. inversion F1; subst d1.
    rewrite Fi in Fi1. inversion Fi1; subst f1. congruence.
Qed.

(** ** C8 *)

(** C8.  When the detector returns rectangles whose areas fit the 32-bit
    integers they are computed in, [_detect_face] crops the picture to a
    rectangle of the largest width times height.  When it returns none for
    the first picture, [verify_faces] answers with the failure whose message
    is "No face detected in first image"; when it returns some for the first
    and none for the second, with the one whose message is "No face detected
    in second image".  Both answers have ['success': False] and
    ['is_same_person': False]. *)
Theorem largest_face_selected (C : Collab) :
  (forall (img : Image C) f rest,
      detectMultiScale C img = Return (f :: rest) ->
      Forall fits_int32 (f :: rest) ->
      exists r,
        _detect_face C img = Some (crop C img r) /\
        In r (f :: rest) /\
        forall r', In r' (f :: rest) -> area r' <= area r) /\
  (forall img1 img2 : Image C,
      detectMultiScale C img1 = Return [] ->
      verify_faces C img1 img2 =
        PDict [("success", PBool false);
               ("message", PStr "No face detected in first image");
               ("similarity_score", PFloat 0);
               ("is_same_person", PBool false)]) /\
  (forall (img1 img2 : Image C) f rest,
      detectMultiScale C img1 = Return (f :: rest) ->
      detectMultiScale C img2 = Return [] ->
      verify_faces C img1 img2 =
        PDict [("success", PBool false);
               ("message", PStr "No face detected in second image");
               ("similarity_score", PFloat 0);
               ("is_same_person", PBool false)]).
Proof.
  split; [|split].
  - intros img f rest D Fit. unfold _detect_face. rewrite D.
    cbn [largest_face]. exists (max_by area_key f rest).
    destruct (max_by_spec area_key f rest) as [Hin Hmax].
    split; [reflexivity|]. split; [exact Hin|].
    intros r' Hr'. rewrite Forall_forall in Fit.
    rewrite <- (area_key_fits r') by (now apply Fit).
    rewrite <- (area_key_fits (max_by area_key f rest)) by (now apply Fit).
    now apply Hmax.
  - intros img1 img2 D. unfold verify_faces, _detect_face. now rewrite D.
  - intros img1 img2 f rest D1 D2. unfold verify_faces, _detect_face.
    now rewrite D1, D2.
Qed.

Lemma largest_face_selected_witness :
  (exists r,
      _detect_face Demo.C0 [(0, 0, 60, 60); (100, 0, 80, 90)] =
        Some (crop Demo.C0 [(0, 0, 60, 60); (100, 0, 80, 90)] r) /\
      In r [(0, 0, 60, 60); (100, 0, 80, 90)] /\
      forall r', In r' [(0, 0, 60, 60); (100, 0, 80, 90)] -> area r' <= area r) /\
  dict_get "message" (as_dict (verify_faces Demo.C0 [] [(10, 10, 120, 120)])) =
    Some (PStr "No face detected in first image") /\
  dict_get "message" (as_dict (verify_faces Demo.C0 [(10, 10, 120, 120)] [])) =
    Some (PStr "No face detected in second image").
Proof.
  pose proof (largest_face_selected Demo.C0) as (L & F1 & F2).
  split; [|split].
  - apply (L [(0, 0, 60, 60); (100, 0, 80, 90)] (0, 0, 60, 60) [(100, 0, 80, 90)]).
    + reflexivity.
    + repeat constructor; simpl; lia.
  - rewrite (F1 [] [(10, 10, 120, 120)]); reflexivity.
  - rewrite (F2 [(10, 10, 120, 120)] [] (10, 10, 120, 120) []); reflexivity.
Defined.

(** ** C9 *)

(** *** Validation failures *)



(** *** Exceptions *)






(** ** C10 *)

(** C10.  Whatever the store does, when [get_kyc_details] called with
    [admin=False] answers with a success, the submission it returns has no
    ['admin_notes'] entry and its ['identity_documents'], when present, are a
    dictionary without ['document_number'].  Called with [admin=True] over a
    store that answers, it returns the stored submission with its [_id]
    turned into a string and both entries as they are stored. *)
Theorem details_hide_sensitive_fields (kyc_id : string) (w : World) :
  (forall user_id res w',
      get_kyc_details kyc_id user_id false w = (Return (PDict res), w') ->
      dict_get "success" res = Some (PBool true) ->
      exists sub,
        dict_get "kyc_submission" res = Some (PDict sub) /\
        dict_has "admin_notes" sub = false /\
        match dict_get "identity_documents" sub with
        | Some (PDict docs) => dict_has "document_number" docs = false
        | Some _ => False
        | None => True
        end) /\
  (forall user_id d,
      healthy w -> submission_by_id w kyc_id = Some d ->
      fst (get_kyc_details kyc_id user_id true w) =
        Return (PDict [("success", PBool true);
                       ("kyc_submission", PDict (str_id d))]) /\
      dict_get "admin_notes" (str_id d) = dict_get "admin_notes" d /\
      dict_get "identity_documents" (str_id d) = dict_get "identity_documents" d).
Proof.
  split.
  - intros user_id res w' E S. exact (details_for_users _ _ _ _ _ E S).
  - intros user_id d H F. rewrite (details_for_admin kyc_id user_id w d H F).
    split; [reflexivity|]. split; apply dict_get_str_id; reflexivity.
Qed.

Lemma details_hide_sensitive_fields_witness :
  (exists sub,
      dict_get "kyc_submission"
        (as_dict (match fst (get_kyc_details Demo.id0 (Some "u1") false Demo.approved)
                  with Return v => v | Raise _ => PNone end)) =
        Some (PDict sub) /\
      dict_has "admin_notes" sub = false /\
      match dict_get "identity_documents" sub with
      | Some (PDict docs) => dict_has "document_number" docs = false
      | Some _ => False
      | None => True
      end) /\
  fst (get_kyc_details Demo.id0 None true Demo.approved) =
    Return (PDict [("success", PBool true);
                   ("kyc_submission",
                     PDict (str_id (hd [] (kyc_collection Demo.approved))))]).
Proof.
  split.
  - apply (proj1 (details_hide_sensitive_fields Demo.id0 Demo.approved)
             (Some "u1") _
             (snd (get_kyc_details Demo.id0 (Some "u1") false Demo.approved))).
    + vm_compute. reflexivity.
    + vm_compute. reflexivity.
  - apply (proj2 (details_hide_sensitive_fields Demo.id0 Demo.approved)
             None (hd [] (kyc_collection Demo.approved))).
    + reflexivity.
    + vm_compute. reflexivity.
Defined.

(** ** Scenarios *)

(** A user submits, an admin approves, the status reads approved, and a
    second submission is refused as a conflict. *)
Example scenario_approve_then_conflict :
  dict_get "status" (as_dict (match fst (get_kyc_status "u1" Demo.approved) with
                              | Return v => v
                              | Raise _ => PNone
                              end)) = Some (PStr "approved") /\
  fst (submit_kyc Demo.C0 "u1" Demo.form Demo.approved) =
    Return (failure "User already has approved KYC submission") /\
  kyc_collection (snd (submit_kyc Demo.C0 "u1" Demo.form Demo.approved)) =
    kyc_collection Demo.approved.
Proof. vm_compute. repeat split. Qed.

(** A face check for a user whose only submission is still pending, and for
    a user without submissions: a failure, and no record. *)
Example scenario_no_approved_submission :
  verify_face_with_stored_image Demo.C0 "u1" (PStr "ada") Demo.submitted =
    (Return (stored_failure "No approved KYC submission with face image found"),
     Demo.submitted) /\
  verify_face_with_stored_image Demo.C0 "u2" (PStr "ada") Demo.submitted =
    (Return (stored_failure "No KYC submission found for user"),
     Demo.submitted).
Proof. vm_compute. repeat split. Qed.
